(** * Quote reference allocation, quote endpoints and quote storage

    A shallow embedding of the quote logic of the Guerilla Teaching backend:

    - [Worker]: the Cloudflare worker ([generateReferenceNumber] and
      [handleQuotes] of the worker script, over the D1 [quotes] table);
    - [AzureDatabase]: [createDatabaseService] of
      [backend/src/config/azure-database.ts], with its PostgreSQL branch and
      its in-memory development fallback.

    The fragment of the JavaScript runtime these functions use is in [JS]. *)

From Stdlib Require Import String Ascii List Arith NArith ZArith Lia Bool.
From Stdlib Require Import DecimalString DecimalN Floats.
From Stdlib Require Import Permutation Sorted OrderedTypeEx.
From Stdlib Require HexadecimalString.
Import ListNotations.

Open Scope string_scope.
Open Scope nat_scope.

(** ** The JavaScript runtime fragment *)

Module JS.

(** [Number.prototype.toString] on a non-negative integer (a year, a
    counter): its decimal digits, most significant first, no leading zero. *)
Definition toString (n : N) : string :=
  NilEmpty.string_of_uint (N.to_uint n).

(** [n] characters read cyclically from [padString], starting at [cur]
    (the part of [padString] not yet consumed). *)
Fixpoint fill (padString cur : string) (n : nat) : string :=
  match n with
  | O => ""
  | S n' =>
      match cur with
      | String c rest => String c (fill padString rest n')
      | EmptyString =>
          match padString with
          | String c rest => String c (fill padString rest n')
          | EmptyString => ""
          end
      end
  end.

(** [String.prototype.padStart(targetLength, padString)]: the string is
    returned as it is when it already has [targetLength] characters or more,
    and is never shortened. *)
Definition padStart (s : string) (targetLength : nat) (padString : string) : string :=
  if targetLength <=? String.length s then s
  else fill padString padString (targetLength - String.length s) ++ s.

(** The number a string of decimal digits denotes, leading zeros allowed;
    [None] when a character is not a digit. It is used to state what a
    candidate's sequence part stands for. *)
Definition number_of (s : string) : option N :=
  option_map N.of_uint (NilEmpty.uint_of_string s).

(** A decimal digit, [0] to [9]. *)
Definition isDigit (c : ascii) : bool :=
  let n := nat_of_ascii c in (48 <=? n) && (n <=? 57).

(** Every character of [s] satisfies [p]. *)
Fixpoint string_forall (p : ascii -> bool) (s : string) : bool :=
  match s with
  | EmptyString => true
  | String c rest => p c && string_forall p rest
  end.

(** *** Values *)

(** A JavaScript value as [JSON.parse] and object literals build it. Numbers
    are IEEE 754 doubles. An object keeps its properties in insertion order. *)
#[warnings="-register-all"]
Inductive value : Type :=
| VUndefined
| VNull
| VBool (b : bool)
| VNum (x : float)
| VStr (s : string)
| VArr (elements : list value)
| VObj (props : list (string * value)).

(** An integer as a JavaScript number. *)
Definition float_of_Z (z : Z) : float :=
  match z with
  | Z0 => 0%float
  | Zpos _ => PrimFloat.of_uint63 (Uint63.of_Z z)
  | Zneg _ => PrimFloat.opp (PrimFloat.of_uint63 (Uint63.of_Z (Z.opp z)))
  end.

Definition VInt (z : Z) : value := VNum (float_of_Z z).

(** [ToBoolean]: what [!v], [v || w] and [if (v)] test. *)
Definition truthy (v : value) : bool :=
  match v with
  | VUndefined | VNull => false
  | VBool b => b
  | VNum x => negb (PrimFloat.is_zero x || PrimFloat.is_nan x)
  | VStr s => negb (String.eqb s "")
  | VArr _ | VObj _ => true
  end.

(** [v || w]. *)
Definition or_else (v w : value) : value := if truthy v then v else w.

(** [Array.isArray]. *)
Definition isArray (v : value) : bool :=
  match v with VArr _ => true | _ => false end.

(** Own properties of an object, first binding of a key. *)
Fixpoint lookup (props : list (string * value)) (key : string) : value :=
  match props with
  | [] => VUndefined
  | (k, v) :: rest => if String.eqb k key then v else lookup rest key
  end.

(** [v.key] for a key that is no built-in property: the object's own
    property, [undefined] on anything else. *)
Definition get_field (v : value) (key : string) : value :=
  match v with
  | VObj props => lookup props key
  | _ => VUndefined
  end.

(** [obj.key = v] on an object literal: an existing key keeps its place. *)
Fixpoint set_field (props : list (string * value)) (key : string) (v : value)
  : list (string * value) :=
  match props with
  | [] => [(key, v)]
  | (k, w) :: rest =>
      if String.eqb k key then (k, v) :: rest
      else (k, w) :: set_field rest key v
  end.

(** [delete obj.key]. *)
Definition delete_field (props : list (string * value)) (key : string)
  : list (string * value) :=
  filter (fun kv => negb (String.eqb (fst kv) key)) props.

(** A computation inside a [try] block: it returns a value or throws. *)
Inductive completion (A : Type) : Type :=
| Returns (a : A)
| Throws.
Arguments Returns {A} a.
Arguments Throws {A}.

Definition bind {A B : Type} (c : completion A) (k : A -> completion B) : completion B :=
  match c with
  | Returns a => k a
  | Throws => Throws
  end.

Notation "x <- c ;; k" := (bind c (fun x => k))
  (at level 61, c at next level, right associativity).

(** Property access [v.key]: a [TypeError] on [undefined] and [null]. *)
Definition prop (v : value) (key : string) : completion value :=
  match v with
  | VUndefined | VNull => Throws
  | _ => Returns (get_field v key)
  end.

(** What the handlers take from the runtime as it is: [ToNumber] on a
    string, an array or an object, and the JSON serializer and parser
    ([None]: [JSON.parse] throws a [SyntaxError]). *)
Record Runtime : Type := {
  ToNumberOther : value -> float;
  JSON_stringify : value -> string;
  JSON_parse : string -> option value
}.

(** [ToNumber], as the operands of [*] go through it. *)
Definition ToNumber (rt : Runtime) (v : value) : float :=
  match v with
  | VUndefined => PrimFloat.nan
  | VNull => 0%float
  | VBool b => if b then 1%float else 0%float
  | VNum x => x
  | VStr _ | VArr _ | VObj _ => ToNumberOther rt v
  end.

Definition parse (rt : Runtime) (text : string) : completion value :=
  match JSON_parse rt text with
  | Some v => Returns v
  | None => Throws
  end.

(** *** Strings *)

(** [String.prototype.startsWith]. *)
Definition startsWith (s p : string) : bool := String.prefix p s.

(** [String.prototype.split] on a one-character separator. [cur] holds the
    characters of the segment being read. *)
Fixpoint split_from (sep : ascii) (cur : string) (s : string) : list string :=
  match s with
  | EmptyString => [cur]
  | String c rest =>
      if Ascii.eqb c sep then cur :: split_from sep "" rest
      else split_from sep (cur ++ String c "") rest
  end.

Definition split (s : string) (sep : ascii) : list string := split_from sep "" s.

(** [arr[i]] ([None] is [undefined]). *)
Definition index {A : Type} (xs : list A) (i : nat) : option A := nth_error xs i.

(** *** [parseInt] *)

(** White space [parseInt] skips (the ASCII part of it). *)
Definition isWhiteSpace (c : ascii) : bool :=
  let n := nat_of_ascii c in
  (n =? 32) || ((9 <=? n) && (n <=? 13)).

Fixpoint trimStart (s : string) : string :=
  match s with
  | String c rest => if isWhiteSpace c then trimStart rest else s
  | EmptyString => s
  end.

(** The value of [c] as a digit of the given radix (10 or 16). *)
Definition digitValue (radix : Z) (c : ascii) : option Z :=
  let n := Z.of_nat (nat_of_ascii c) in
  let d := if ((48 <=? n) && (n <=? 57))%Z then Some (n - 48)%Z
           else if ((97 <=? n) && (n <=? 102))%Z then Some (n - 87)%Z
           else if ((65 <=? n) && (n <=? 70))%Z then Some (n - 55)%Z
           else None in
  match d with
  | Some v => if (v <? radix)%Z then Some v else None
  | None => None
  end.

(** The longest prefix of digits of [s], read in [radix] on top of [acc];
    [seen] tells whether a digit was read. No digit at all is [NaN]. *)
Fixpoint parseDigits (radix : Z) (s : string) (acc : Z) (seen : bool) : option Z :=
  match s with
  | String c rest =>
      match digitValue radix c with
      | Some d => parseDigits radix rest (acc * radix + d)%Z true
      | None => if seen then Some acc else None
      end
  | EmptyString => if seen then Some acc else None
  end.

(** [parseInt(s)] with no radix given: leading white space, a sign, then
    [0x] or [0X] for hexadecimal, then digits; [None] is [NaN]. The result is
    the integer read (the double nearest to it, for one past 2^53). *)
Definition parseInt (s : string) : option Z :=
  let s := trimStart s in
  let '(sign, s) :=
    match s with
    | String "-" rest => ((-1)%Z, rest)
    | String "+" rest => (1%Z, rest)
    | _ => (1%Z, s)
    end in
  let '(radix, s) :=
    match s with
    | String "0" (String "x" rest) => (16%Z, rest)
    | String "0" (String "X" rest) => (16%Z, rest)
    | _ => (10%Z, s)
    end in
  option_map (Z.mul sign) (parseDigits radix s 0%Z false).

(** [parseInt(url.searchParams.get(name))]: an absent parameter is [null],
    which [parseInt] reads as the text [null], hence [NaN]. *)
Definition parseInt_param (p : option string) : option Z :=
  match p with
  | Some s => parseInt s
  | None => parseInt "null"
  end.

(** [n || d] on a number: [NaN] and [0] are falsy. *)
Definition number_or (n : option Z) (d : Z) : Z :=
  match n with
  | Some z => if (z =? 0)%Z then d else z
  | None => d
  end.

(** *** Regular expressions *)

(** The regular expressions of the handlers are sequences of counted atoms
    between [^] and [$]. *)
Inductive atom : Type :=
| Lit (c : ascii)      (* the character itself; an escaped backslash is one *)
| Digit.               (* the class of decimal digits *)

Inductive piece : Type :=
| Exactly (n : nat) (a : atom)    (* a{n}; a is a{1} *)
| AtLeast (n : nat) (a : atom).   (* a{n,} *)

Definition regex : Type := list piece.

Definition atom_matches (a : atom) (c : ascii) : bool :=
  match a with
  | Lit d => Ascii.eqb c d
  | Digit => isDigit c
  end.

(** The expression matches the empty string. *)
Fixpoint nullable (r : regex) : bool :=
  match r with
  | [] => true
  | Exactly O _ :: rest => nullable rest
  | AtLeast O _ :: rest => nullable rest
  | _ => false
  end.

(** What remains to be matched after reading [c]: one expression per way of
    reading it. *)
Fixpoint derive (r : regex) (c : ascii) : list regex :=
  match r with
  | [] => []
  | Exactly O _ :: rest => derive rest c
  | Exactly (S n) a :: rest =>
      if atom_matches a c then [Exactly n a :: rest] else []
  | AtLeast O a :: rest =>
      ((if atom_matches a c then [AtLeast O a :: rest] else []) ++ derive rest c)%list
  | AtLeast (S n) a :: rest =>
      if atom_matches a c then [AtLeast n a :: rest] else []
  end.

Fixpoint matches_any (rs : list regex) (s : string) : bool :=
  match s with
  | EmptyString => existsb nullable rs
  | String c rest => matches_any (flat_map (fun r => derive r c) rs) rest
  end.

(** [/^r$/.test(s)]. *)
Definition test (r : regex) (s : string) : bool := matches_any [r] s.

(** A literal run of characters. *)
Fixpoint lits (s : string) : regex :=
  match s with
  | EmptyString => []
  | String c rest => Exactly 1 (Lit c) :: lits rest
  end.

(** *** Arrays *)

(** An index argument of [slice], relative to the end when negative and
    clamped to the array. *)
Definition slice_index (len : nat) (i : Z) : nat :=
  if (i <? 0)%Z then Z.to_nat (Z.max (Z.of_nat len + i) 0)
  else Nat.min (Z.to_nat i) len.

(** [Array.prototype.slice(start, end)]. *)
Definition slice {A : Type} (xs : list A) (start stop : Z) : list A :=
  let from := slice_index (List.length xs) start in
  let to := slice_index (List.length xs) stop in
  firstn (to - from) (skipn from xs).

(** [Array.prototype.includes] on an array of strings. *)
Definition includes (xs : list string) (x : string) : bool :=
  existsb (String.eqb x) xs.

End JS.

(** ** The fragment of SQL the queries use *)

Module SQL.

Section OrderBy.
Context {A : Type}.

(** [before a b]: [a] sorts strictly before [b] in ascending order. *)
Variable before : A -> A -> bool.

(** Insertion into a descending sequence: the row goes in front of the
    first one that sorts strictly before it. *)
Fixpoint insert_desc (row : A) (sorted : list A) : list A :=
  match sorted with
  | [] => [row]
  | r :: rest =>
      if before r row then row :: sorted
      else r :: insert_desc row rest
  end.

(** [ORDER BY key DESC]. Rows with equal keys stay in table order. *)
Definition order_by_desc (rows : list A) : list A :=
  fold_right insert_desc [] rows.

(** In a descending sequence no row sorts strictly before a later one. *)
Definition descending : list A -> Prop :=
  StronglySorted (fun a b => before a b = false).

End OrderBy.

(** [LIMIT limit OFFSET offset] on an ordered result. *)
Definition limit_offset {A : Type} (rows : list A) (limit offset : nat) : list A :=
  firstn limit (skipn offset rows).

End SQL.

(** ** The worker *)

Module Worker.
Import JS.

(** The template literal of [generateReferenceNumber]:
    [`GT-${year}-${counter.toString().padStart(4, '0')}`]. *)
Definition reference (year counter : N) : string :=
  "GT-" ++ JS.toString year ++ "-" ++ JS.padStart (JS.toString counter) 4 "0".

(** The [do ... while (existingRefs.includes(reference))] loop, entered with
    [counter]. One unit of [fuel] pays for one execution of the body;
    [None] is a loop still running when the fuel is spent. *)
Fixpoint generateReferenceNumber_loop
  (fuel : nat) (year counter : N) (existingRefs : list string) : option string :=
  match fuel with
  | O => None
  | S fuel' =>
      let reference := reference year counter in
      if JS.includes existingRefs reference
      then generateReferenceNumber_loop fuel' year (counter + 1)%N existingRefs
      else Some reference
  end.

(** [generateReferenceNumber(existingRefs)], with the calendar year read
    from the clock passed in as [year]. The fuel given is one more than the
    number of existing references, which is enough for the loop to return
    (lemma [generateReferenceNumber_returns]). *)
Definition generateReferenceNumber (year : N) (existingRefs : list string) : option string :=
  generateReferenceNumber_loop (S (List.length existingRefs)) year 1%N existingRefs.

(** *** [generateUUID] *)

(** [v.toString(16)] on a non-negative integer. *)
Definition toString16 (v : N) : string :=
  HexadecimalString.NilEmpty.string_of_uint (N.to_hex_uint v).

(** The callback of the [replace]: [c] is the character matched, [r] the
    value of [Math.random() * 16 | 0] at this call. *)
Definition uuid_digit (c : ascii) (r : N) : string :=
  let v := if Ascii.eqb c "x" then r else N.lor (N.land r 3) 8 in
  toString16 v.

(** [template.replace(/[xy]/g, callback)]: the characters [x] and [y] are
    replaced from left to right, the [i]-th of them with the [i]-th draw. *)
Fixpoint replace_xy (template : string) (random : nat -> N) (i : nat) : string :=
  match template with
  | EmptyString => ""
  | String c rest =>
      if Ascii.eqb c "x" || Ascii.eqb c "y"
      then uuid_digit c (random i) ++ replace_xy rest random (S i)
      else String c (replace_xy rest random i)
  end.

(** [generateUUID()], [random i] being what [Math.random() * 16 | 0] gives
    at the [i]-th call: an integer from 0 to 15. *)
Definition generateUUID (random : nat -> N) : string :=
  replace_xy "xxxxxxxx-xxxx-4xxx-yxxx-xxxxxxxxxxxx" random 0.

(** A lower-case hexadecimal digit. *)
Definition isHexDigit (c : ascii) : bool :=
  let n := nat_of_ascii c in
  ((48 <=? n) && (n <=? 57)) || ((97 <=? n) && (n <=? 102)).

(** What stands at a position of a version 4 UUID: a hexadecimal digit, a
    dash, the version digit [4], or the variant digit ([8], [9], [a] or [b]). *)
Inductive uuid_class : Type := Hex | Dash | Version4 | Variant.

Definition in_class (k : uuid_class) (c : ascii) : bool :=
  match k with
  | Hex => isHexDigit c
  | Dash => Ascii.eqb c "-"
  | Version4 => Ascii.eqb c "4"
  | Variant => Ascii.eqb c "8" || Ascii.eqb c "9" || Ascii.eqb c "a" || Ascii.eqb c "b"
  end.

(** The 36 positions of a version 4 UUID, 8-4-4-4-12. *)
Definition uuid_v4_layout : list uuid_class :=
  (repeat Hex 8 ++ [Dash] ++ repeat Hex 4 ++ [Dash; Version4] ++ repeat Hex 3
   ++ [Dash; Variant] ++ repeat Hex 3 ++ [Dash] ++ repeat Hex 12)%list.

(** [s] has one character per position of the layout, each of its class. *)
Fixpoint follows (layout : list uuid_class) (s : string) : bool :=
  match layout, s with
  | [], EmptyString => true
  | k :: layout', String c rest => in_class k c && follows layout' rest
  | _, _ => false
  end.

(** *** The D1 [quotes] table *)

(** A row of the [quotes] table of the D1 schema, one field per column. The
    two JSON columns hold text. *)
Record QuoteRow : Type := {
  id : string;
  reference_number : string;
  customer_data : string;
  items : string;
  total_amount : float;
  currency : string;
  status : string;
  comments : value;
  created_at : string;
  updated_at : string
}.

(** The table: its rows, oldest insertion first. *)
Definition Database : Type := list QuoteRow.

(** [INSERT INTO quotes]: [id] is the primary key and [reference_number] is
    declared [UNIQUE]; a row that repeats either one is refused and the
    statement throws. The columns left out of the statement take their
    default, [CURRENT_TIMESTAMP], which the row passed in already holds. *)
Definition insert_quote (db : Database) (row : QuoteRow) : completion Database :=
  if existsb (fun r => String.eqb (id r) (id row)) db then Throws
  else if existsb (fun r => String.eqb (reference_number r) (reference_number row)) db
       then Throws
       else Returns (db ++ [row])%list.

(** [ORDER BY created_at DESC]: the column holds text, and text compares
    character by character. *)
Definition order_by_created_at_desc (rows : list QuoteRow) : list QuoteRow :=
  SQL.order_by_desc (fun a b => String.ltb (created_at a) (created_at b)) rows.

(** [LIMIT ? OFFSET ?] as SQLite reads the two bound numbers: a negative
    offset counts as 0. *)
Definition limit_offset (rows : list QuoteRow) (limit offset : Z) : list QuoteRow :=
  SQL.limit_offset rows (Z.to_nat limit) (Z.to_nat offset).

(** The row as the driver hands it to the script: an object with one
    property per column. *)
Definition row_object (r : QuoteRow) : list (string * value) :=
  [ ("id", VStr (id r));
    ("reference_number", VStr (reference_number r));
    ("customer_data", VStr (customer_data r));
    ("items", VStr (items r));
    ("total_amount", VNum (total_amount r));
    ("currency", VStr (currency r));
    ("status", VStr (status r));
    ("comments", comments r);
    ("created_at", VStr (created_at r));
    ("updated_at", VStr (updated_at r)) ].

(** *** Requests and responses *)

(** What a request evaluation reads from outside the script: the calendar
    year and time of the clock, the identifier [generateUUID] draws, and the
    table's [CURRENT_TIMESTAMP]. *)
Record Env : Type := {
  year : N;
  uuid : string;
  now : string;
  current_timestamp : string
}.

(** A request: its method, the path and query of its URL, and its body as
    [request.json()] decodes it. *)
Record Request : Type := {
  method : string;
  pathname : string;
  searchParams : list (string * string);
  body : value
}.

(** [url.searchParams.get(name)]: [None] is [null]. *)
Fixpoint searchParams_get (params : list (string * string)) (name : string) : option string :=
  match params with
  | [] => None
  | (k, v) :: rest => if String.eqb k name then Some v else searchParams_get rest name
  end.

Record Response : Type := {
  status_code : nat;
  json : value
}.

Definition jsonResponse (data : value) (status : nat) : Response :=
  {| status_code := status; json := data |}.

(** [{ success: false, message }]. *)
Definition failure (message : string) : value :=
  VObj [("success", VBool false); ("message", VStr message)].

(** *** [POST /api/quotes] *)

Definition array_length (v : value) : nat :=
  match v with VArr elements => List.length elements | _ => 0 end.

Definition elements_of (v : value) : list value :=
  match v with VArr elements => elements | _ => [] end.

(** [items] is an array with at least one element: what the first check of
    the creation endpoint lets through. *)
Definition has_items (items : value) : bool :=
  match items with
  | VArr (_ :: _) => true
  | _ => false
  end.

(** [items.reduce((sum, item) => sum + (item.price * item.quantity), sum0)]. *)
Fixpoint reduce_total (rt : Runtime) (items : list value) (sum : float) : completion float :=
  match items with
  | [] => Returns sum
  | item :: rest =>
      price <- prop item "price" ;;
      quantity <- prop item "quantity" ;;
      reduce_total rt rest (sum + ToNumber rt price * ToNumber rt quantity)%float
  end.

(** The [try] block of the creation endpoint. The result is the response
    and the table afterwards; [None] inside stands for a reference loop that
    has not returned. The two notification calls that follow the insertion
    only log, and sit in a [try] of their own whose [catch] only warns: they
    change neither the response nor the table. *)
Definition create_quote (rt : Runtime) (env : Env) (db : Database) (body : value)
  : completion (option (Response * Database)) :=
  items <- prop body "items" ;;
  customer <- prop body "customer" ;;
  comments <- prop body "comments" ;;
  if negb (truthy items) || negb (isArray items) || (array_length items =? 0) then
    Returns (Some (jsonResponse (failure "Quote must have at least one item") 400, db))
  else if negb (truthy customer) then
    Returns (Some (jsonResponse (failure "Customer information is required") 400, db))
  else
    let refNumbers := map reference_number db in
    totalAmount <- reduce_total rt (elements_of items) 0%float ;;
    match generateReferenceNumber (year env) refNumbers with
    | None => Returns None
    | Some referenceNumber =>
        let quoteId := uuid env in
        db' <- insert_quote db
                 {| id := quoteId;
                    reference_number := referenceNumber;
                    customer_data := JSON_stringify rt customer;
                    items := JSON_stringify rt items;
                    total_amount := totalAmount;
                    currency := "ZAR";
                    status := "pending";
                    comments := or_else comments VNull;
                    created_at := current_timestamp env;
                    updated_at := current_timestamp env |} ;;
        let quote :=
          VObj [ ("id", VStr quoteId);
                 ("referenceNumber", VStr referenceNumber);
                 ("customer", customer);
                 ("items", items);
                 ("totalAmount", VNum totalAmount);
                 ("currency", VStr "ZAR");
                 ("status", VStr "pending");
                 ("comments", comments);
                 ("createdAt", VStr (now env)) ] in
        Returns (Some (jsonResponse
                         (VObj [ ("success", VBool true);
                                 ("quote", quote);
                                 ("message", VStr "Quote created successfully") ])
                         201,
                       db'))
    end.

(** The creation endpoint: whatever the [try] block throws is answered 500,
    the table left as it was. *)
Definition post_quotes (rt : Runtime) (env : Env) (db : Database) (body : value)
  : option (Response * Database) :=
  match create_quote rt env db body with
  | Returns r => r
  | Throws => Some (jsonResponse (failure "Failed to create quote") 500, db)
  end.

(** *** [GET /api/quotes/:reference] *)

(** The regular expression literal of the format check, character for
    character: [^GT-\\d{4}-\\d{4}$]. In a regular expression literal a doubled
    backslash is an escaped backslash, so each [\\d{4}] reads: a backslash,
    then the letter [d] four times. *)
Definition reference_format : regex :=
  (lits "GT-" ++ [Exactly 1 (Lit "\"); Exactly 4 (Lit "d")]
   ++ lits "-" ++ [Exactly 1 (Lit "\"); Exactly 4 (Lit "d")])%list.

(** The quote object built from a row: the row's properties, the two JSON
    columns parsed, camel-case names added and the column names they replace
    deleted. *)
Definition quote_of_row (r : QuoteRow) (customer items : value) : value :=
  let q := row_object r in
  let q := set_field q "customer" customer in
  let q := set_field q "items" items in
  let q := set_field q "referenceNumber" (VStr (reference_number r)) in
  let q := set_field q "totalAmount" (VNum (total_amount r)) in
  let q := set_field q "createdAt" (VStr (created_at r)) in
  let q := delete_field q "customer_data" in
  let q := delete_field q "reference_number" in
  let q := delete_field q "total_amount" in
  let q := delete_field q "created_at" in
  VObj q.

Definition lookup_quote (rt : Runtime) (db : Database) (path : string)
  : completion Response :=
  let reference :=
    match index (split path "/") 3 with
    | Some segment => segment
    | None => "undefined"
    end in
  if negb (test reference_format reference) then
    Returns (jsonResponse
               (failure "Invalid reference number format. Expected: GT-YYYY-NNNN") 400)
  else
    match find (fun r => String.eqb (reference_number r) reference) db with
    | None => Returns (jsonResponse (failure "Quote not found") 404)
    | Some result =>
        customer <- parse rt (customer_data result) ;;
        items <- parse rt (items result) ;;
        Returns (jsonResponse
                   (VObj [ ("success", VBool true);
                           ("quote", quote_of_row result customer items) ])
                   200)
    end.

Definition get_quote (rt : Runtime) (db : Database) (path : string) : Response :=
  match lookup_quote rt db path with
  | Returns r => r
  | Throws => jsonResponse (failure "Failed to retrieve quote") 500
  end.

(** *** [GET /api/quotes] *)

(** The object a listed row is mapped to: the row's properties (column
    names kept), the two JSON columns parsed and camel-case names added. *)
Definition listed_quote (rt : Runtime) (r : QuoteRow) : completion value :=
  customer <- parse rt (customer_data r) ;;
  items <- parse rt (items r) ;;
  let q := row_object r in
  let q := set_field q "customer" customer in
  let q := set_field q "items" items in
  let q := set_field q "referenceNumber" (VStr (reference_number r)) in
  let q := set_field q "totalAmount" (VNum (total_amount r)) in
  let q := set_field q "createdAt" (VStr (created_at r)) in
  Returns (VObj q).

(** [results.map(f)] for an [f] that may throw. *)
Fixpoint map_rows (rt : Runtime) (rows : list QuoteRow) : completion (list value) :=
  match rows with
  | [] => Returns []
  | r :: rest =>
      q <- listed_quote rt r ;;
      qs <- map_rows rt rest ;;
      Returns (q :: qs)
  end.

(** The rows the listing query selects. *)
Definition select_page (db : Database) (limit offset : Z) : list QuoteRow :=
  limit_offset (order_by_created_at_desc db) limit offset.

(** [parseInt(url.searchParams.get('limit')) || 50]. *)
Definition requested_limit (params : list (string * string)) : Z :=
  number_or (parseInt_param (searchParams_get params "limit")) 50.

(** [parseInt(url.searchParams.get('offset')) || 0]. *)
Definition requested_offset (params : list (string * string)) : Z :=
  number_or (parseInt_param (searchParams_get params "offset")) 0.

Definition list_page (rt : Runtime) (db : Database) (params : list (string * string))
  : completion Response :=
  let limit := requested_limit params in
  let offset := requested_offset params in
  if ((limit <? 1) || (limit >? 100))%Z then
    Returns (jsonResponse (failure "Limit must be between 1 and 100") 400)
  else
    quotes <- map_rows rt (select_page db limit offset) ;;
    Returns (jsonResponse
               (VObj [ ("success", VBool true);
                       ("quotes", VArr quotes);
                       ("pagination",
                        VObj [ ("limit", VInt limit);
                               ("offset", VInt offset);
                               ("count", VInt (Z.of_nat (List.length quotes))) ]) ])
               200).

Definition get_quotes (rt : Runtime) (db : Database) (params : list (string * string))
  : Response :=
  match list_page rt db params with
  | Returns r => r
  | Throws => jsonResponse (failure "Failed to retrieve quotes") 500
  end.

(** *** [handleQuotes] *)

Definition handleQuotes (rt : Runtime) (env : Env) (db : Database) (request : Request)
  : option (Response * Database) :=
  if String.eqb (method request) "POST" && String.eqb (pathname request) "/api/quotes" then
    post_quotes rt env db (body request)
  else if String.eqb (method request) "GET"
          && startsWith (pathname request) "/api/quotes/"
          && negb (String.eqb (pathname request) "/api/quotes/") then
    Some (get_quote rt db (pathname request), db)
  else if String.eqb (method request) "GET" && String.eqb (pathname request) "/api/quotes" then
    Some (get_quotes rt db (searchParams request), db)
  else
    Some (jsonResponse (VObj [("error", VStr "Quote endpoint not found")]) 404, db).

End Worker.

(** ** The worker's product catalogue (read endpoints) *)

Module Products.
Import JS.

(** A row of the D1 [products] table, one field per column; a column that
    may hold [NULL] is an option. *)
Record ProductRow : Type := {
  id : string;
  name : string;
  description : option string;
  price : float;
  original_price : option float;
  image : option string;
  category : string;
  in_stock : option Z;
  featured : option Z;
  tags : option string;
  created_at : string;
  updated_at : string
}.

Definition Catalogue : Type := list ProductRow.

(** The lower-case form of an ASCII letter, as SQLite folds case. *)
Definition lower (c : ascii) : ascii :=
  let n := nat_of_ascii c in
  if (65 <=? n) && (n <=? 90) then ascii_of_nat (n + 32) else c.

(** SQLite's [text LIKE pattern]: [%] stands for any run of characters, [_]
    for any one character, and letters match without regard to case (for
    ASCII). There is no escape character. *)
Fixpoint like (pattern text : string) : bool :=
  match pattern with
  | EmptyString => match text with EmptyString => true | _ => false end
  | String c pattern' =>
      if Ascii.eqb c "%" then
        (fix skip (t : string) : bool :=
           like pattern' t
           || match t with
              | EmptyString => false
              | String _ t' => skip t'
              end) text
      else
        match text with
        | EmptyString => false
        | String d text' =>
            (Ascii.eqb c "_" || Ascii.eqb (lower c) (lower d)) && like pattern' text'
        end
  end.

(** [column LIKE ?] on a column that may hold [NULL]: [NULL] matches nothing. *)
Definition like_column (column : option string) (pattern : string) : bool :=
  match column with
  | Some text => like pattern text
  | None => false
  end.

(** The [WHERE] clause the listing builds: [category = ?] when a category
    other than [all] is asked for, the two [LIKE]s on [%search%] when a search
    text is given, [featured = 1] when [featured] is the text [true]. *)
Definition selected (category search featured_only : option string) (r : ProductRow) : bool :=
  (match category with
   | Some c =>
       if negb (String.eqb c "") && negb (String.eqb c "all")
       then String.eqb (Products.category r) c
       else true
   | None => true
   end)
  && (match search with
      | Some text =>
          if negb (String.eqb text "")
          then like ("%" ++ text ++ "%") (name r)
               || like_column (description r) ("%" ++ text ++ "%")
          else true
      | None => true
      end)
  && (match featured_only with
      | Some f =>
          if String.eqb f "true"
          then match featured r with
               | Some z => (z =? 1)%Z
               | None => false
               end
          else true
      | None => true
      end).

(** The rows of the listing query, [ORDER BY created_at DESC]. *)
Definition select_products (db : Catalogue) (category search featured_only : option string)
  : list ProductRow :=
  SQL.order_by_desc (fun a b => String.ltb (created_at a) (created_at b))
    (filter (selected category search featured_only) db).

Definition optional {A : Type} (f : A -> value) (column : option A) : value :=
  match column with
  | Some a => f a
  | None => VNull
  end.

(** The row as the driver hands it to the script. *)
Definition row_object (r : ProductRow) : list (string * value) :=
  [ ("id", VStr (id r));
    ("name", VStr (name r));
    ("description", optional VStr (description r));
    ("price", VNum (price r));
    ("original_price", optional VNum (original_price r));
    ("image", optional VStr (image r));
    ("category", VStr (category r));
    ("in_stock", optional VInt (in_stock r));
    ("featured", optional VInt (featured r));
    ("tags", optional VStr (tags r));
    ("created_at", VStr (created_at r));
    ("updated_at", VStr (updated_at r)) ].

(** [Boolean(column)] on an integer column. *)
Definition flag (column : option Z) : bool :=
  match column with
  | Some z => negb (z =? 0)%Z
  | None => false
  end.

(** [row.tags || '[]']: a [NULL] and an empty text give [[]]. *)
Definition tags_text (r : ProductRow) : string :=
  match tags r with
  | Some t => if String.eqb t "" then "[]" else t
  | None => "[]"
  end.

(** The product object built from a row:
    [{...row, tags: JSON.parse(row.tags || '[]'), inStock: Boolean(row.in_stock),
      featured: Boolean(row.featured)}]. *)
Definition product_of_row (rt : Runtime) (r : ProductRow) : completion value :=
  parsed <- parse rt (tags_text r) ;;
  let q := row_object r in
  let q := set_field q "tags" parsed in
  let q := set_field q "inStock" (VBool (flag (in_stock r))) in
  let q := set_field q "featured" (VBool (flag (featured r))) in
  Returns (VObj q).

Fixpoint map_products (rt : Runtime) (rows : list ProductRow) : completion (list value) :=
  match rows with
  | [] => Returns []
  | r :: rest =>
      q <- product_of_row rt r ;;
      qs <- map_products rt rest ;;
      Returns (q :: qs)
  end.

(** [GET /api/products]. *)
Definition get_products (rt : Runtime) (db : Catalogue) (params : list (string * string))
  : Worker.Response :=
  let category := Worker.searchParams_get params "category" in
  let search := Worker.searchParams_get params "search" in
  let featured_only := Worker.searchParams_get params "featured" in
  match map_products rt (select_products db category search featured_only) with
  | Returns products => Worker.jsonResponse (VArr products) 200
  | Throws => Worker.jsonResponse (VObj [("error", VStr "Failed to fetch products")]) 500
  end.

(** [GET /api/products/:id], for a path that starts with [/api/products/]
    as the route requires, so that [pathname.split('/')[3]] is a text; on a
    shorter path it would be [undefined], which D1 refuses to bind. *)
Definition get_product (rt : Runtime) (db : Catalogue) (path : string) : Worker.Response :=
  match index (split path "/") 3 with
  | None => Worker.jsonResponse (VObj [("error", VStr "Failed to fetch product")]) 500
  | Some productId =>
      match find (fun r => String.eqb (id r) productId) db with
      | None => Worker.jsonResponse (VObj [("error", VStr "Product not found")]) 404
      | Some result =>
          match product_of_row rt result with
          | Returns product => Worker.jsonResponse product 200
          | Throws =>
              Worker.jsonResponse (VObj [("error", VStr "Failed to fetch product")]) 500
          end
      end
  end.

End Products.

(** ** The database service of the Azure backend *)

Module AzureDatabase.

Inductive Status : Type := pending | approved | rejected | expired.

(** The [QuoteStorage] interface. *)
Record QuoteStorage : Type := {
  id : string;
  referenceNumber : string;
  customerData : string;
  items : string;
  subtotal : float;
  total : float;
  currency : string;
  status : Status;
  comments : option string;
  createdAt : string;
  expiresAt : string;
  lastModifiedAt : option string
}.

(** A row of the PostgreSQL [quotes] table created by [createTables], one
    field per column. How a value is read into the type of its column is
    PostgreSQL's: see [PostgreSQL] below. *)
Module Row.
Record t : Type := {
  id : string;
  reference_number : string;
  customer_data : string;
  items : string;
  subtotal : float;
  total : float;
  currency : string;
  status : Status;
  comments : option string;
  created_at : string;
  expires_at : string;
  last_modified_at : option string
}.
End Row.

Definition convertRowToQuote (row : Row.t) : QuoteStorage :=
  {| id := Row.id row;
     referenceNumber := Row.reference_number row;
     customerData := Row.customer_data row;
     items := Row.items row;
     subtotal := Row.subtotal row;
     total := Row.total row;
     currency := Row.currency row;
     status := Row.status row;
     comments := Row.comments row;
     createdAt := Row.created_at row;
     expiresAt := Row.expires_at row;
     lastModifiedAt := Row.last_modified_at row |}.

(** [text || null] on an optional string: the empty string is falsy. *)
Definition or_null (text : option string) : option string :=
  match text with
  | Some EmptyString => None
  | _ => text
  end.

(** The parameters [$1 .. $12] of the [INSERT], as a row. *)
Definition row_of_quote (quote : QuoteStorage) : Row.t :=
  {| Row.id := id quote;
     Row.reference_number := referenceNumber quote;
     Row.customer_data := customerData quote;
     Row.items := items quote;
     Row.subtotal := subtotal quote;
     Row.total := total quote;
     Row.currency := currency quote;
     Row.status := status quote;
     Row.comments := or_null (comments quote);
     Row.created_at := createdAt quote;
     Row.expires_at := expiresAt quote;
     Row.last_modified_at := or_null (lastModifiedAt quote) |}.

(** What a rejected promise carries. *)
Inductive Error : Type :=
| data_exception                       (* a value does not fit the type of its column *)
| unique_violation (column : string)   (* PRIMARY KEY or UNIQUE refused the row *)
| invalid_row_count (clause : string)  (* a negative LIMIT or OFFSET *)
| failed (message : string).           (* [throw new Error(message)] *)

(** What the service takes from PostgreSQL as it is.
    [store row]: the values of an [INSERT] read into the column types of the
    table of [createTables] ([VARCHAR(255)] for [id] and [reference_number],
    [VARCHAR(3)] for [currency], [DECIMAL(10,2)] for the two amounts,
    [TIMESTAMP WITH TIME ZONE] for the three times), as the row is stored and
    read back; [None] when a value does not fit (a text too long, an amount
    out of range, a text that is no timestamp) and the statement is refused.
    [scan table]: the rows of the table in the order a query without
    [ORDER BY] returns them, which PostgreSQL leaves open. *)
Record PostgreSQL : Type := {
  store : Row.t -> option Row.t;
  scan : list Row.t -> list Row.t;
  scan_rows : forall table, Permutation table (scan table)
}.

Inductive result (A : Type) : Type :=
| Resolved (a : A)
| Rejected (e : Error).
Arguments Resolved {A} a.
Arguments Rejected {A} e.

(** The state the service works on: whether [pgPool] is set, the
    PostgreSQL table the pool reaches, and the module's [devQuoteStorage]
    array. *)
Record State : Type := {
  pgPool : bool;
  quotes : list Row.t;
  devQuoteStorage : list QuoteStorage
}.

Definition with_quotes (st : State) (rows : list Row.t) : State :=
  {| pgPool := pgPool st; quotes := rows; devQuoteStorage := devQuoteStorage st |}.

Definition with_devQuoteStorage (st : State) (qs : list QuoteStorage) : State :=
  {| pgPool := pgPool st; quotes := quotes st; devQuoteStorage := qs |}.



(** [INSERT INTO quotes ... RETURNING *]: the values are read into the
    column types first, and refused when they do not fit; then [id] is the
    primary key and [reference_number] is [UNIQUE]. *)
Definition insert_returning (pg : PostgreSQL) (table : list Row.t) (row : Row.t)
  : result (list Row.t) * list Row.t :=
  match store pg row with
  | None => (Rejected data_exception, table)
  | Some stored =>
      if existsb (fun r => String.eqb (Row.id r) (Row.id stored)) table then
        (Rejected (unique_violation "id"), table)
      else if existsb (fun r => String.eqb (Row.reference_number r)
                                  (Row.reference_number stored)) table then
        (Rejected (unique_violation "reference_number"), table)
      else (Resolved [stored], (table ++ [stored])%list)
  end.

Definition createQuote (pg : PostgreSQL) (st : State) (quote : QuoteStorage)
  : result QuoteStorage * State :=
  if pgPool st then
    match insert_returning pg (quotes st) (row_of_quote quote) with
    | (Resolved (row :: _), table) => (Resolved (convertRowToQuote row), with_quotes st table)
    | (Resolved [], table) =>
        (Rejected (failed "Failed to create quote in PostgreSQL"), with_quotes st table)
    | (Rejected e, table) => (Rejected e, with_quotes st table)
    end
  else
    (Resolved quote, with_devQuoteStorage st (devQuoteStorage st ++ [quote])%list).

Definition findQuoteByReference (st : State) (reference : string) : option QuoteStorage :=
  if pgPool st then
    option_map convertRowToQuote
      (find (fun r => String.eqb (Row.reference_number r) reference) (quotes st))
  else find (fun q => String.eqb (referenceNumber q) reference) (devQuoteStorage st).

Definition findQuoteById (st : State) (key : string) : option QuoteStorage :=
  if pgPool st then
    option_map convertRowToQuote (find (fun r => String.eqb (Row.id r) key) (quotes st))
  else find (fun q => String.eqb (id q) key) (devQuoteStorage st).

Definition set_row_status (newStatus : Status) (modified : string) (r : Row.t) : Row.t :=
  {| Row.id := Row.id r;
     Row.reference_number := Row.reference_number r;
     Row.customer_data := Row.customer_data r;
     Row.items := Row.items r;
     Row.subtotal := Row.subtotal r;
     Row.total := Row.total r;
     Row.currency := Row.currency r;
     Row.status := newStatus;
     Row.comments := Row.comments r;
     Row.created_at := Row.created_at r;
     Row.expires_at := Row.expires_at r;
     Row.last_modified_at := Some modified |}.

Definition set_quote_status (newStatus : Status) (modified : string) (q : QuoteStorage)
  : QuoteStorage :=
  {| id := id q;
     referenceNumber := referenceNumber q;
     customerData := customerData q;
     items := items q;
     subtotal := subtotal q;
     total := total q;
     currency := currency q;
     status := newStatus;
     comments := comments q;
     createdAt := createdAt q;
     expiresAt := expiresAt q;
     lastModifiedAt := Some modified |}.

(** The first element that satisfies [p] replaced by its image under [f]. *)
Fixpoint update_first {A : Type} (p : A -> bool) (f : A -> A) (xs : list A) : list A :=
  match xs with
  | [] => []
  | x :: rest => if p x then f x :: rest else x :: update_first p f rest
  end.

(** [updateQuoteStatus(id, status)], [modified] being the clock's
    [new Date().toISOString()]. *)
Definition updateQuoteStatus (st : State) (key : string) (newStatus : Status) (modified : string)
  : option QuoteStorage * State :=
  if pgPool st then
    let hit := fun r => String.eqb (Row.id r) key in
    (option_map (fun r => convertRowToQuote (set_row_status newStatus modified r))
       (find hit (quotes st)),
     with_quotes st (map (fun r => if hit r then set_row_status newStatus modified r else r)
                       (quotes st)))
  else
    let hit := fun q => String.eqb (id q) key in
    (option_map (set_quote_status newStatus modified) (find hit (devQuoteStorage st)),
     with_devQuoteStorage st
       (update_first hit (set_quote_status newStatus modified) (devQuoteStorage st))).

(** [SELECT reference_number FROM quotes] has no [ORDER BY]. *)
Definition getAllReferences (pg : PostgreSQL) (st : State) : list string :=
  if pgPool st then map Row.reference_number (scan pg (quotes st))
  else map referenceNumber (devQuoteStorage st).

Section Listing.

(** The instant PostgreSQL reads from the text of a timestamp. *)
Variable instant : string -> Z.

(** [older a b]: the row [a] was created strictly before the row [b]. *)
Definition older (a b : Row.t) : bool :=
  (instant (Row.created_at a) <? instant (Row.created_at b))%Z.

(** [SELECT * FROM quotes ORDER BY created_at DESC LIMIT $1 OFFSET $2]:
    PostgreSQL refuses a negative [LIMIT] or [OFFSET]. *)
Definition select_page (table : list Row.t) (limit offset : Z) : result (list Row.t) :=
  if (limit <? 0)%Z then Rejected (invalid_row_count "LIMIT")
  else if (offset <? 0)%Z then Rejected (invalid_row_count "OFFSET")
  else Resolved
         (SQL.limit_offset (SQL.order_by_desc older table)
            (Z.to_nat limit) (Z.to_nat offset)).

(** [getAllQuotes(limit = 50, offset = 0)]: an argument left out is [None]. *)
Definition getAllQuotes (st : State) (limit offset : option Z) : result (list QuoteStorage) :=
  let limit := match limit with Some n => n | None => 50%Z end in
  let offset := match offset with Some n => n | None => 0%Z end in
  if pgPool st then
    match select_page (quotes st) limit offset with
    | Resolved rows => Resolved (map convertRowToQuote rows)
    | Rejected e => Rejected e
    end
  else Resolved (JS.slice (devQuoteStorage st) offset (offset + limit)%Z).

End Listing.

(** The elements before the first one that satisfies [p], and those after. *)
Fixpoint remove_first {A : Type} (p : A -> bool) (xs : list A) : list A :=
  match xs with
  | [] => []
  | x :: rest => if p x then rest else x :: remove_first p rest
  end.

Definition deleteQuote (st : State) (key : string) : bool * State :=
  if pgPool st then
    let hit := fun r => String.eqb (Row.id r) key in
    (existsb hit (quotes st), with_quotes st (filter (fun r => negb (hit r)) (quotes st)))
  else
    let hit := fun q => String.eqb (id q) key in
    (existsb hit (devQuoteStorage st),
     with_devQuoteStorage st (remove_first hit (devQuoteStorage st))).

End AzureDatabase.

(** ** The specification's words, and the requests of its scenarios *)

Module Spec.
Import JS.

(** The reference pattern of the lookup boundary as the specification
    writes it, [^GT-\d{4}-\d{4,}$]: four digits, a dash, four digits or more. *)
Definition reference_pattern : regex :=
  (lits "GT-" ++ [Exactly 4 Digit] ++ lits "-" ++ [AtLeast 4 Digit])%list.

(** The decimal digits of a number, most significant first. *)
Definition decimal (n : N) : string := NilEmpty.string_of_uint (N.to_uint n).

(** [count] zeros. *)
Fixpoint zeros (count : nat) : string :=
  match count with
  | O => ""
  | S count' => String "0" (zeros count')
  end.

(** The sequence part of a reference as the specification words it,
    [<sequence zero-padded to 4 digits>]: the decimal digits of the sequence
    number, with as many zeros in front as it takes to make four characters,
    and none when the number has four digits or more. *)
Definition zero_padded (n : N) : string :=
  zeros (4 - String.length (decimal n)) ++ decimal n.

(** The candidate as the specification words it:
    [GT-<year>-<sequence zero-padded to 4 digits>]. *)
Definition candidate (year n : N) : string :=
  "GT-" ++ decimal year ++ "-" ++ zero_padded n.

(** [n] allocations in a row, each reference handed out joining the used
    ones before the next allocation: the references in the order they are
    handed out. *)
Fixpoint allocate_repeatedly (year : N) (used : list string) (n : nat)
  : option (list string) :=
  match n with
  | O => Some []
  | S n' =>
      match Worker.generateReferenceNumber year used with
      | None => None
      | Some r => option_map (cons r) (allocate_repeatedly year (used ++ [r])%list n')
      end
  end.

Definition item (name : string) (price quantity : float) : value :=
  VObj [("name", VStr name); ("price", VNum price); ("quantity", VNum quantity)].

Definition customer_Jo (email : string) : value :=
  VObj [("firstName", VStr "Jo"); ("lastName", VStr "Doe"); ("email", VStr email)].

(** The request of Scenario A. *)
Definition scenario_A : value :=
  VObj [ ("items", VArr [item "Course" 350 2]);
         ("customer", customer_Jo "jo@example.com") ].

(** A request whose first item has a negative price and the quantity 0, and
    whose second item has the quantity 1.5. *)
Definition bad_items_request : value :=
  VObj [ ("items", VArr [item "Course" (-5) 0; item "Half" 10 1.5]);
         ("customer", customer_Jo "jo@example.com") ].

(** The request of Scenario A with an email that has no [@] in it. *)
Definition bad_email_request : value :=
  VObj [ ("items", VArr [item "Course" 350 2]);
         ("customer", customer_Jo "not-an-email") ].

(** The request of Scenario A asking for another currency. *)
Definition usd_request : value :=
  VObj [ ("items", VArr [item "Course" 350 2]);
         ("customer", customer_Jo "jo@example.com");
         ("currency", VStr "USD") ].

(** A stored quote, and a quote with another [id] and the same reference. *)
Definition stored_quote : AzureDatabase.QuoteStorage :=
  {| AzureDatabase.id := "0f8fad5b-d9cb-469f-a165-70867728950e";
     AzureDatabase.referenceNumber := "GT-2025-0001";
     AzureDatabase.customerData := "{}";
     AzureDatabase.items := "[]";
     AzureDatabase.subtotal := 700;
     AzureDatabase.total := 700;
     AzureDatabase.currency := "USD";
     AzureDatabase.status := AzureDatabase.pending;
     AzureDatabase.comments := None;
     AzureDatabase.createdAt := "2025-06-01T10:00:00.000Z";
     AzureDatabase.expiresAt := "2025-07-01T10:00:00.000Z";
     AzureDatabase.lastModifiedAt := None |}.

Definition same_reference_quote : AzureDatabase.QuoteStorage :=
  {| AzureDatabase.id := "7c9e6679-7425-40de-944b-e07fc1f90ae7";
     AzureDatabase.referenceNumber := "GT-2025-0001";
     AzureDatabase.customerData := "{}";
     AzureDatabase.items := "[]";
     AzureDatabase.subtotal := 350;
     AzureDatabase.total := 350;
     AzureDatabase.currency := "USD";
     AzureDatabase.status := AzureDatabase.pending;
     AzureDatabase.comments := None;
     AzureDatabase.createdAt := "2025-06-02T10:00:00.000Z";
     AzureDatabase.expiresAt := "2025-07-02T10:00:00.000Z";
     AzureDatabase.lastModifiedAt := None |}.

(** A request whose only item is [null]. *)
Definition null_item_request : value :=
  VObj [ ("items", VArr [VNull]);
         ("customer", customer_Jo "jo@example.com") ].

(** A quote created later under the [id] of [stored_quote]. *)
Definition same_id_quote : AzureDatabase.QuoteStorage :=
  {| AzureDatabase.id := "0f8fad5b-d9cb-469f-a165-70867728950e";
     AzureDatabase.referenceNumber := "GT-2025-0003";
     AzureDatabase.customerData := "{}";
     AzureDatabase.items := "[]";
     AzureDatabase.subtotal := 350;
     AzureDatabase.total := 350;
     AzureDatabase.currency := "USD";
     AzureDatabase.status := AzureDatabase.pending;
     AzureDatabase.comments := None;
     AzureDatabase.createdAt := "2025-06-03T10:00:00.000Z";
     AzureDatabase.expiresAt := "2025-07-03T10:00:00.000Z";
     AzureDatabase.lastModifiedAt := None |}.

(** A quote with another [id] and another reference than [stored_quote],
    created a day later. *)
Definition second_quote : AzureDatabase.QuoteStorage :=
  {| AzureDatabase.id := "7c9e6679-7425-40de-944b-e07fc1f90ae7";
     AzureDatabase.referenceNumber := "GT-2025-0002";
     AzureDatabase.customerData := "{}";
     AzureDatabase.items := "[]";
     AzureDatabase.subtotal := 350;
     AzureDatabase.total := 350;
     AzureDatabase.currency := "USD";
     AzureDatabase.status := AzureDatabase.pending;
     AzureDatabase.comments := None;
     AzureDatabase.createdAt := "2025-06-02T10:00:00.000Z";
     AzureDatabase.expiresAt := "2025-07-02T10:00:00.000Z";
     AzureDatabase.lastModifiedAt := None |}.

(** A reading of timestamps for the examples: the day of the month, which
    orders the timestamps of one month. *)
Definition sample_instant (timestamp : string) : Z :=
  match JS.number_of (substring 8 2 timestamp) with
  | Some day => Z.of_N day
  | None => 0%Z
  end.

(** A PostgreSQL for the examples: it stores a row as it is passed when the
    three short texts fit their columns, and scans a table in insertion
    order. *)
Definition sample_postgres : AzureDatabase.PostgreSQL :=
  {| AzureDatabase.store := fun row =>
       if (String.length (AzureDatabase.Row.id row) <=? 255)
          && (String.length (AzureDatabase.Row.reference_number row) <=? 255)
          && (String.length (AzureDatabase.Row.currency row) <=? 3)
       then Some row else None;
     AzureDatabase.scan := fun table => table;
     AzureDatabase.scan_rows := fun table => Permutation_refl table |}.

(** The service on PostgreSQL, its table holding [stored_quote]; and the
    service on its in-memory store, holding [stored_quote]. *)
Definition pg_state : AzureDatabase.State :=
  {| AzureDatabase.pgPool := true;
     AzureDatabase.quotes := [AzureDatabase.row_of_quote stored_quote];
     AzureDatabase.devQuoteStorage := [] |}.

Definition dev_state : AzureDatabase.State :=
  {| AzureDatabase.pgPool := false;
     AzureDatabase.quotes := [];
     AzureDatabase.devQuoteStorage := [stored_quote] |}.

(** A runtime and a clock to run the examples with; no example depends on
    what they hold. *)
Definition sample_runtime : Runtime :=
  {| ToNumberOther := fun _ => PrimFloat.nan;
     JSON_stringify := fun _ => "{}";
     JSON_parse := fun _ => Some (VObj []) |}.

Definition sample_env : Worker.Env :=
  {| Worker.year := 2025;
     Worker.uuid := "0f8fad5b-d9cb-469f-a165-70867728950e";
     Worker.now := "2025-06-01T10:00:00.000Z";
     Worker.current_timestamp := "2025-06-01 10:00:00" |}.

(** A runtime whose [JSON.parse] throws on every text. *)
Definition unparsing_runtime : Runtime :=
  {| ToNumberOther := fun _ => PrimFloat.nan;
     JSON_stringify := fun _ => "{}";
     JSON_parse := fun _ => None |}.

(** Two rows of the worker's table, the second created a day after the
    first. *)
Definition first_row : Worker.QuoteRow :=
  {| Worker.id := "0f8fad5b-d9cb-469f-a165-70867728950e";
     Worker.reference_number := "GT-2025-0001";
     Worker.customer_data := "{}";
     Worker.items := "[]";
     Worker.total_amount := 700;
     Worker.currency := "ZAR";
     Worker.status := "pending";
     Worker.comments := VNull;
     Worker.created_at := "2025-06-01 10:00:00";
     Worker.updated_at := "2025-06-01 10:00:00" |}.

Definition second_row : Worker.QuoteRow :=
  {| Worker.id := "7c9e6679-7425-40de-944b-e07fc1f90ae7";
     Worker.reference_number := "GT-2025-0002";
     Worker.customer_data := "{}";
     Worker.items := "[]";
     Worker.total_amount := 350;
     Worker.currency := "ZAR";
     Worker.status := "pending";
     Worker.comments := VNull;
     Worker.created_at := "2025-06-02 10:00:00";
     Worker.updated_at := "2025-06-02 10:00:00" |}.

(** Two rows of the catalogue, the first of them featured and with no
    description and no tags. *)
Definition standard_product : Products.ProductRow :=
  {| Products.id := "pricing-igcse-standard-1";
     Products.name := "Standard Service: 1 IGCSE Subject";
     Products.description := None;
     Products.price := 350;
     Products.original_price := None;
     Products.image := Some "/images/pricing/igcse-standard.jpg";
     Products.category := "Pricing 2025";
     Products.in_stock := Some 1%Z;
     Products.featured := Some 1%Z;
     Products.tags := None;
     Products.created_at := "2025-09-29 08:00:00";
     Products.updated_at := "2025-09-29 08:00:00" |}.

Definition premium_product : Products.ProductRow :=
  {| Products.id := "pricing-igcse-premium-1";
     Products.name := "Premium Service: 1 IGCSE Subject";
     Products.description := Some "Expert assessment and mock examinations.";
     Products.price := 650;
     Products.original_price := Some 700%float;
     Products.image := None;
     Products.category := "Pricing 2025";
     Products.in_stock := Some 0%Z;
     Products.featured := Some 0%Z;
     Products.tags := Some "[]";
     Products.created_at := "2025-09-30 08:00:00";
     Products.updated_at := "2025-09-30 08:00:00" |}.

(** A later request evaluation: another identifier, one minute on. *)
Definition sample_env_later : Worker.Env :=
  {| Worker.year := 2025;
     Worker.uuid := "7c9e6679-7425-40de-944b-e07fc1f90ae7";
     Worker.now := "2025-06-01T10:01:00.000Z";
     Worker.current_timestamp := "2025-06-01 10:01:00" |}.

(** The table after Scenario A. *)
Definition table_after_A : Worker.Database :=
  match Worker.post_quotes sample_runtime sample_env [] scenario_A with
  | Some (_, db) => db
  | None => []
  end.

End Spec.

(** * Properties *)

Module JSFacts.
Import JS.

Lemma includes_true_iff (xs : list string) (x : string) :
  includes xs x = true <-> In x xs.
Proof.
  unfold includes. rewrite existsb_exists. split.
  - intros [y [Hy Heq]]. apply String.eqb_eq in Heq. now subst.
  - intros H. exists x. split; [assumption | apply String.eqb_refl].
Qed.

Lemma includes_false_iff (xs : list string) (x : string) :
  includes xs x = false <-> ~ In x xs.
Proof.
  rewrite <- includes_true_iff. destruct (includes xs x); split; congruence.
Qed.

End JSFacts.

(** ** The reference allocator *)

Module AllocatorFacts.
Import JS JSFacts Worker.

Lemma append_inj_l (p a b : string) : p ++ a = p ++ b -> a = b.
Proof.
  induction p as [|c p IH]; simpl; intros H.
  - exact H.
  - injection H as H. now apply IH.
Qed.

Lemma number_of_toString (n : N) : number_of (toString n) = Some n.
Proof.
  unfold number_of, toString.
  rewrite NilEmpty.usu. simpl. now rewrite Unsigned.of_to.
Qed.

Lemma number_of_zero_cons (s : string) (n : N) :
  number_of s = Some n -> number_of (String "0" s) = Some n.
Proof.
  unfold number_of. simpl.
  destruct (NilEmpty.uint_of_string s) as [d|]; simpl; [|discriminate].
  intros H. injection H as <-. reflexivity.
Qed.

Lemma number_of_fill_zero (k : nat) (cur s : string) (n : N) :
  cur = "" \/ cur = "0" ->
  number_of s = Some n ->
  number_of (fill "0" cur k ++ s) = Some n.
Proof.
  revert cur. induction k as [|k IH]; intros cur Hcur Hs; simpl.
  - exact Hs.
  - destruct Hcur as [-> | ->]; simpl;
      apply number_of_zero_cons, IH; auto.
Qed.

Lemma number_of_padStart (n : N) :
  number_of (padStart (toString n) 4 "0") = Some n.
Proof.
  unfold padStart.
  destruct (4 <=? String.length (toString n)).
  - apply number_of_toString.
  - apply number_of_fill_zero; [now right | apply number_of_toString].
Qed.

(** Distinct counters give distinct candidates. *)
Lemma reference_inj (year n m : N) :
  reference year n = reference year m -> n = m.
Proof.
  unfold reference. intros H.
  do 3 apply append_inj_l in H.
  assert (E : number_of (padStart (toString n) 4 "0")
              = number_of (padStart (toString m) 4 "0")) by now rewrite H.
  rewrite !number_of_padStart in E. now injection E.
Qed.

(** The loop returns the first free candidate at or after [counter], when
    the fuel reaches it. *)
Lemma loop_first_free (year : N) (existingRefs : list string) (fuel : nat) (counter n : N) :
  (counter <= n < counter + N.of_nat fuel)%N ->
  (forall m, (counter <= m < n)%N -> In (reference year m) existingRefs) ->
  ~ In (reference year n) existingRefs ->
  generateReferenceNumber_loop fuel year counter existingRefs
    = Some (reference year n).
Proof.
  revert counter. induction fuel as [|fuel IH]; intros counter Hn Hused Hfree.
  - lia.
  - simpl. destruct (includes existingRefs (reference year counter)) eqn:E.
    + apply includes_true_iff in E.
      assert (counter <> n) by (intros ->; contradiction).
      apply IH; [lia | | assumption].
      intros m Hm. apply Hused. lia.
    + apply includes_false_iff in E.
      assert (counter = n) as ->; [|reflexivity].
      destruct (N.eq_dec counter n) as [|Hne]; [assumption|].
      exfalso. apply E, Hused. lia.
Qed.

(** More fuel never changes a result already obtained. *)
Lemma loop_fuel_mono (year : N) (existingRefs : list string) (fuel fuel' : nat) (counter : N) (r : string) :
  fuel <= fuel' ->
  generateReferenceNumber_loop fuel year counter existingRefs = Some r ->
  generateReferenceNumber_loop fuel' year counter existingRefs = Some r.
Proof.
  revert fuel' counter. induction fuel as [|fuel IH]; intros fuel' counter Hle H.
  - discriminate.
  - destruct fuel' as [|fuel']; [lia|]. simpl in *.
    destruct (includes existingRefs (reference year counter)); [|assumption].
    apply IH; [lia | assumption].
Qed.

(** Pigeonhole: when the candidates [1 .. k] are all used, there are at
    least [k] used references. *)
Lemma used_prefix_bound (year : N) (existingRefs : list string) (k : nat) :
  (forall m, (1 <= m <= N.of_nat k)%N -> In (reference year m) existingRefs) ->
  k <= List.length existingRefs.
Proof.
  intros Hused.
  pose (candidate := fun i : nat => reference year (N.of_nat i)).
  assert (L : List.length (map candidate (seq 1 k)) <= List.length existingRefs).
  { apply NoDup_incl_length.
    - apply NoDup_map_NoDup_ForallPairs; [|apply seq_NoDup].
      intros a b _ _ E. apply reference_inj in E. lia.
    - intros r Hr. apply in_map_iff in Hr as [m [<- Hm]].
      apply in_seq in Hm. apply Hused. lia. }
  now rewrite length_map, length_seq in L.
Qed.

(** Among the candidates [1 .. bound] there is a first free one, unless all
    of them are used. *)
Lemma first_free_or_all_used (year : N) (existingRefs : list string) (bound : nat) :
  (exists n, (1 <= n <= N.of_nat bound)%N /\
             ~ In (reference year n) existingRefs /\
             forall m, (1 <= m < n)%N -> In (reference year m) existingRefs)
  \/ (forall m, (1 <= m <= N.of_nat bound)%N -> In (reference year m) existingRefs).
Proof.
  induction bound as [|bound [IH | IH]].
  - right. intros m Hm. lia.
  - left. destruct IH as [n [Hn H]]. exists n. split; [lia | exact H].
  - destruct (includes existingRefs (reference year (N.of_nat (S bound)))) eqn:E.
    + right. intros m Hm. apply includes_true_iff in E.
      destruct (N.eq_dec m (N.of_nat (S bound))) as [-> | Hne]; [assumption|].
      apply IH. lia.
    + left. exists (N.of_nat (S bound)). apply includes_false_iff in E.
      repeat split; [lia | lia | assumption |].
      intros m Hm. apply IH. lia.
Qed.

(** Some candidate among the first [length existingRefs + 1] is free, so a
    first free candidate exists. *)
Lemma first_free_exists (year : N) (existingRefs : list string) :
  exists n, (1 <= n <= N.of_nat (S (List.length existingRefs)))%N /\
            ~ In (reference year n) existingRefs /\
            forall m, (1 <= m < n)%N -> In (reference year m) existingRefs.
Proof.
  destruct (first_free_or_all_used year existingRefs (S (List.length existingRefs)))
    as [H | H]; [exact H|].
  apply used_prefix_bound in H. lia.
Qed.

(** The loop of [generateReferenceNumber] returns: the fuel it is given is
    never spent. *)
Lemma generateReferenceNumber_returns (year : N) (existingRefs : list string) :
  exists r, generateReferenceNumber year existingRefs = Some r.
Proof.
  destruct (first_free_exists year existingRefs) as [n [Hn [Hfree Hused]]].
  exists (reference year n). unfold generateReferenceNumber.
  apply loop_first_free; [lia | assumption | assumption].
Qed.

Lemma fill_zeros (k : nat) : fill "0" "0" k = Spec.zeros k /\ fill "0" "" k = Spec.zeros k.
Proof.
  induction k as [|k [IH0 IH1]]; [split; reflexivity|].
  cbn [fill Spec.zeros]. now rewrite IH1.
Qed.

(** The template literal builds the candidate of the specification: [GT-],
    the year in decimal, a dash, the sequence number zero-padded to four
    digits. *)
Lemma reference_candidate (year n : N) : reference year n = Spec.candidate year n.
Proof.
  unfold reference, Spec.candidate, Spec.zero_padded, padStart, toString, Spec.decimal.
  destruct (Nat.leb_spec 4 (String.length (NilEmpty.string_of_uint (N.to_uint n))))
    as [Hlen | Hlen].
  - now replace (4 - _) with 0 by lia.
  - now rewrite (proj1 (fill_zeros _)).
Qed.

(** C1. For every list [usedReferences] of strings, the allocator returns
    the candidate [GT-<year>-<sequence zero-padded to 4 digits>] with the
    smallest sequence number [n >= 1] whose candidate is not in
    [usedReferences]: every candidate of a smaller sequence number is in the
    list, and the returned value is not. *)
Theorem generateReferenceNumber_first_free (year : N) (usedReferences : list string) :
  exists n,
    (1 <= n)%N /\
    generateReferenceNumber year usedReferences
      = Some ("GT-" ++ Spec.decimal year ++ "-" ++ Spec.zero_padded n) /\
    ~ In ("GT-" ++ Spec.decimal year ++ "-" ++ Spec.zero_padded n) usedReferences /\
    (forall m, (1 <= m < n)%N ->
               In ("GT-" ++ Spec.decimal year ++ "-" ++ Spec.zero_padded m) usedReferences).
Proof.
  destruct (first_free_exists year usedReferences) as [n [Hn [Hfree Hused]]].
  exists n. fold (Spec.candidate year n).
  split; [lia|]. split; [|split].
  - rewrite <- reference_candidate. unfold generateReferenceNumber.
    apply loop_first_free; [lia | assumption | assumption].
  - now rewrite <- reference_candidate.
  - intros m Hm. fold (Spec.candidate year m). rewrite <- reference_candidate.
    apply Hused. lia.
Qed.

(** *** The width of the sequence part *)

Lemma string_forall_app (p : ascii -> bool) (a b : string) :
  string_forall p (a ++ b) = string_forall p a && string_forall p b.
Proof.
  induction a as [|c a IH]; simpl; [reflexivity|].
  now rewrite IH, andb_assoc.
Qed.

Lemma string_of_uint_digits (d : Decimal.uint) :
  string_forall isDigit (NilEmpty.string_of_uint d) = true.
Proof.
  induction d; simpl; try rewrite IHd; reflexivity.
Qed.

Lemma toString_digits (n : N) : string_forall isDigit (toString n) = true.
Proof. apply string_of_uint_digits. Qed.

Lemma fill_zero_digits (k : nat) (cur : string) :
  cur = "" \/ cur = "0" ->
  string_forall isDigit (fill "0" cur k) = true.
Proof.
  revert cur. induction k as [|k IH]; intros cur Hcur; [reflexivity|].
  destruct Hcur as [-> | ->]; simpl; apply IH; auto.
Qed.

Lemma padStart_zero_digits (s : string) (w : nat) :
  string_forall isDigit s = true ->
  string_forall isDigit (padStart s w "0") = true.
Proof.
  intros Hs. unfold padStart. destruct (w <=? String.length s); [exact Hs|].
  rewrite string_forall_app, Hs, fill_zero_digits; auto.
Qed.

Lemma fill_length (c : ascii) (rest cur : string) (k : nat) :
  String.length (fill (String c rest) cur k) = k.
Proof.
  revert cur. induction k as [|k IH]; intros cur; [reflexivity|].
  simpl. destruct cur; simpl; now rewrite IH.
Qed.

Lemma string_length_app (a b : string) :
  String.length (a ++ b) = String.length a + String.length b.
Proof. induction a as [|c a IH]; simpl; [reflexivity | now rewrite IH]. Qed.

(** Padding gives the wider of the two lengths: it pads, and never truncates. *)
Lemma padStart_length (s : string) (w : nat) (c : ascii) (rest : string) :
  String.length (padStart s w (String c rest)) = Nat.max w (String.length s).
Proof.
  unfold padStart. destruct (w <=? String.length s) eqn:E.
  - apply Nat.leb_le in E. lia.
  - apply Nat.leb_gt in E. rewrite string_length_app, fill_length. lia.
Qed.

(** A counter up to 9999 prints in at most four digits (checked on each). *)
Lemma toString_length_le_4 (k : N) :
  (k <= 9999)%N -> String.length (toString k) <= 4.
Proof.
  intros Hk.
  assert (A : forallb (fun i => String.length (toString (N.of_nat i)) <=? 4)
                (seq 0 (N.to_nat 10000)) = true)
    by (vm_compute; reflexivity).
  rewrite forallb_forall in A.
  rewrite <- (N2Nat.id k). apply Nat.leb_le, A, in_seq. lia.
Qed.

(** C6. In every year, the [k]-th allocation (the candidates [1 .. k-1] of
    the year are used, the [k]-th is not) returns the [k]-th candidate; its
    sequence part consists of decimal digits, has exactly 4 of them for the
    first 9999 allocations, and is [10000] for the 10000th: the sequence
    grows to five digits, it does not wrap, truncate or fail. *)
Theorem generateReferenceNumber_sequence_width
  (year : N) (usedReferences : list string) (k : N) :
  (1 <= k <= 10000)%N ->
  (forall m, (1 <= m < k)%N -> In (reference year m) usedReferences) ->
  ~ In (reference year k) usedReferences ->
  exists digits,
    generateReferenceNumber year usedReferences
      = Some ("GT-" ++ toString year ++ "-" ++ digits) /\
    string_forall isDigit digits = true /\
    number_of digits = Some k /\
    ((k <= 9999)%N -> String.length digits = 4) /\
    (k = 10000%N -> digits = "10000").
Proof.
  intros Hk Hused Hfree.
  exists (padStart (toString k) 4 "0"). repeat split.
  - unfold generateReferenceNumber.
    assert (B : N.to_nat (k - 1) <= List.length usedReferences).
    { apply (used_prefix_bound year). intros m Hm. apply Hused. lia. }
    apply loop_first_free; [lia | assumption | assumption].
  - apply padStart_zero_digits, toString_digits.
  - apply number_of_padStart.
  - intros Hle. rewrite padStart_length.
    pose proof (toString_length_le_4 k Hle). lia.
  - intros ->. vm_compute. reflexivity.
Qed.

(** The 10000th allocation of 2025, on the used set [GT-2025-0001] to
    [GT-2025-9999]. *)
Lemma generateReferenceNumber_sequence_width_witness :
  exists digits,
    generateReferenceNumber 2025
      (map (fun i => reference 2025 (N.of_nat i)) (seq 1 (N.to_nat 9999)))
      = Some ("GT-" ++ toString 2025 ++ "-" ++ digits) /\
    string_forall isDigit digits = true /\
    number_of digits = Some 10000%N /\
    ((10000 <= 9999)%N -> String.length digits = 4) /\
    (10000%N = 10000%N -> digits = "10000").
Proof.
  apply (generateReferenceNumber_sequence_width 2025 _ 10000).
  - lia.
  - intros m Hm. apply in_map_iff. exists (N.to_nat m).
    split; [now rewrite N2Nat.id | apply in_seq; lia].
  - intros H. apply in_map_iff in H as [i [E Hi]].
    apply reference_inj in E. apply in_seq in Hi. lia.
Defined.

(** *** Successive allocations *)

(** When the used references hold exactly the first [j] candidates of the
    year, the next [n] allocations hand out the candidates [j+1 .. j+n], in
    this order. *)
Lemma allocate_repeatedly_from (year : N) (n j : nat) (used : list string) :
  (forall m, (1 <= m)%N -> In (reference year m) used <-> (m <= N.of_nat j)%N) ->
  Spec.allocate_repeatedly year used n
    = Some (map (fun i => reference year (N.of_nat i)) (seq (S j) n)).
Proof.
  revert j used. induction n as [|n IH]; intros j used Hinv; [reflexivity|].
  assert (E : generateReferenceNumber year used = Some (reference year (N.of_nat (S j)))).
  { unfold generateReferenceNumber.
    assert (B : j <= List.length used).
    { apply (used_prefix_bound year). intros m Hm. apply Hinv; lia. }
    apply loop_first_free.
    - lia.
    - intros m Hm. apply Hinv; lia.
    - intros H. apply Hinv in H; lia. }
  cbn [Spec.allocate_repeatedly]. rewrite E.
  rewrite (IH (S j)); [reflexivity|].
  intros m Hm. rewrite in_app_iff, (Hinv m Hm). simpl. split.
  - intros [H | [H | []]]; [lia|]. apply reference_inj in H. lia.
  - intros H. destruct (N.eq_dec m (N.of_nat (S j))) as [-> | Hne].
    + right. now left.
    + left. lia.
Qed.

(** X1. In a year none of whose candidates is used yet, the [k]-th allocation
    hands out the [k]-th candidate, [GT-<year>-<k zero-padded to 4 digits>]:
    [GT-<year>-0001], then [GT-<year>-0002], and so on. *)
Lemma allocate_repeatedly_fresh_year (year : N) (n : nat) (used : list string) :
  (forall m, (1 <= m)%N ->
             ~ In ("GT-" ++ Spec.decimal year ++ "-" ++ Spec.zero_padded m) used) ->
  Spec.allocate_repeatedly year used n
    = Some (map (fun i => "GT-" ++ Spec.decimal year ++ "-" ++ Spec.zero_padded (N.of_nat i))
              (seq 1 n)).
Proof.
  intros Hfresh. rewrite (allocate_repeatedly_from year n 0 used).
  - f_equal. apply map_ext. intros i. apply reference_candidate.
  - intros m Hm. split; [|lia]. intros H. exfalso. apply (Hfresh m Hm).
    fold (Spec.candidate year m). now rewrite <- reference_candidate.
Qed.

(** *** What the allocation depends on *)

Lemma no_dash_split (a a' b b' : string) :
  string_forall (fun c => negb (Ascii.eqb c "-")) a = true ->
  string_forall (fun c => negb (Ascii.eqb c "-")) a' = true ->
  a ++ String "-" b = a' ++ String "-" b' ->
  a = a' /\ b = b'.
Proof.
  revert a'. induction a as [|c a IH]; intros [|c' a'] Ha Ha' E; simpl in *.
  - now injection E.
  - injection E as <- _. discriminate.
  - injection E as -> _. apply andb_true_iff in Ha as [Ha _]. discriminate.
  - injection E as <- E.
    apply andb_true_iff in Ha as [_ Ha]. apply andb_true_iff in Ha' as [_ Ha'].
    destruct (IH a' Ha Ha' E) as [-> ->]. now split.
Qed.

Lemma digits_no_dash (s : string) :
  string_forall isDigit s = true ->
  string_forall (fun c => negb (Ascii.eqb c "-")) s = true.
Proof.
  induction s as [|c s IH]; simpl; [reflexivity|].
  intros H. apply andb_true_iff in H as [Hc Hs]. rewrite (IH Hs), andb_true_r.
  destruct (Ascii.eqb_spec c "-") as [-> | _]; [discriminate | reflexivity].
Qed.

Lemma reference_year_counter (year year' n n' : N) :
  reference year n = reference year' n' -> year = year' /\ n = n'.
Proof.
  unfold reference. intros H. apply append_inj_l in H.
  apply no_dash_split in H; try (apply digits_no_dash, toString_digits).
  destruct H as [Hy Hn]. split.
  - assert (E : number_of (toString year) = number_of (toString year'))
      by now rewrite Hy.
    rewrite !number_of_toString in E. now injection E.
  - assert (E : number_of (padStart (toString n) 4 "0")
                = number_of (padStart (toString n') 4 "0")) by now rewrite Hn.
    rewrite !number_of_padStart in E. now injection E.
Qed.

(** X2. A reference determines its year and its sequence number: two
    references are the same string exactly when they are built from the same
    year and the same sequence number, also past 9999. *)
Lemma reference_determines_year_and_counter (year year' n n' : N) :
  reference year n = reference year' n' <-> year = year' /\ n = n'.
Proof.
  split; [apply reference_year_counter | now intros [-> ->]].
Qed.

(** Two lists that hold the same candidates of the year give the same
    allocation. *)
Lemma generateReferenceNumber_same_candidates (year : N) (used used' : list string) :
  (forall m, In (reference year m) used <-> In (reference year m) used') ->
  generateReferenceNumber year used = generateReferenceNumber year used'.
Proof.
  intros Hsame.
  destruct (first_free_exists year used) as [n [Hn [Hfree Hused]]].
  destruct (first_free_exists year used') as [n' [Hn' [Hfree' Hused']]].
  assert (n = n').
  { destruct (N.lt_trichotomy n n') as [Hlt | [Heq | Hgt]]; [exfalso | exact Heq | exfalso].
    - apply Hfree, Hsame, Hused'. lia.
    - apply Hfree', Hsame, Hused. lia. }
  subst n'. unfold generateReferenceNumber.
  rewrite (loop_first_free year used _ 1 n), (loop_first_free year used' _ 1 n);
    try assumption; try lia; reflexivity.
Qed.

(** X3. The allocation depends on the used references as a set only: neither
    their order nor repetitions matter. *)
Lemma generateReferenceNumber_set (year : N) (used used' : list string) :
  (forall s, In s used <-> In s used') ->
  generateReferenceNumber year used = generateReferenceNumber year used'.
Proof.
  intros H. apply generateReferenceNumber_same_candidates. intros m. apply H.
Qed.

(** X4. References of other years among the used ones do not change the
    allocation of the year. *)
Lemma generateReferenceNumber_other_years (year : N) (used others : list string) :
  (forall s, In s others -> exists year' m, year' <> year /\ s = reference year' m) ->
  generateReferenceNumber year (used ++ others) = generateReferenceNumber year used.
Proof.
  intros Hothers. apply generateReferenceNumber_same_candidates.
  intros m. rewrite in_app_iff. split; [|now left].
  intros [H | H]; [exact H|]. exfalso.
  destruct (Hothers _ H) as [year' [m' [Hne E]]].
  apply reference_year_counter in E as [E _]. now apply Hne.
Qed.

(** The references of 2024 do not change the first allocation of 2025. *)
Lemma generateReferenceNumber_other_years_witness :
  generateReferenceNumber 2025 ([] ++ [reference 2024 1; reference 2024 2])
  = generateReferenceNumber 2025 [].
Proof.
  apply (generateReferenceNumber_other_years 2025 [] [reference 2024 1; reference 2024 2]).
  intros s [<- | [<- | []]].
  - exists 2024%N, 1%N. split; [discriminate | reflexivity].
  - exists 2024%N, 2%N. split; [discriminate | reflexivity].
Defined.

(** A list and its reversal with one entry repeated hold the same strings. *)
Lemma generateReferenceNumber_set_witness :
  generateReferenceNumber 2025 ["GT-2025-0001"; "GT-2025-0003"]
  = generateReferenceNumber 2025 ["GT-2025-0003"; "GT-2025-0001"; "GT-2025-0003"].
Proof.
  apply (generateReferenceNumber_set 2025
           ["GT-2025-0001"; "GT-2025-0003"]
           ["GT-2025-0003"; "GT-2025-0001"; "GT-2025-0003"]).
  intros s. simpl. tauto.
Defined.

(** Three allocations in 2025, two references of 2024 being used. *)
Lemma allocate_repeatedly_fresh_year_witness :
  Spec.allocate_repeatedly 2025 ["GT-2024-0001"; "GT-2024-0002"] 3
    = Some ["GT-2025-0001"; "GT-2025-0002"; "GT-2025-0003"].
Proof.
  apply (allocate_repeatedly_fresh_year 2025 3 ["GT-2024-0001"; "GT-2024-0002"]).
  intros m Hm. fold (Spec.candidate 2025 m). rewrite <- reference_candidate.
  intros [H | [H | []]].
  - change "GT-2024-0001" with (reference 2024 1) in H.
    apply reference_year_counter in H as [H _]. discriminate.
  - change "GT-2024-0002" with (reference 2024 2) in H.
    apply reference_year_counter in H as [H _]. discriminate.
Defined.

End AllocatorFacts.

(** ** Identifiers *)

Module UuidFacts.
Import Worker.

Lemma below_16 (r : N) :
  (r < 16)%N ->
  (r = 0 \/ r = 1 \/ r = 2 \/ r = 3 \/ r = 4 \/ r = 5 \/ r = 6 \/ r = 7 \/
   r = 8 \/ r = 9 \/ r = 10 \/ r = 11 \/ r = 12 \/ r = 13 \/ r = 14 \/ r = 15)%N.
Proof. lia. Qed.

(** An [x] is replaced by one hexadecimal digit. *)
Lemma uuid_digit_x (r : N) :
  (r < 16)%N ->
  exists c, uuid_digit "x" r = String c "" /\ in_class Hex c = true.
Proof.
  intros H. apply below_16 in H.
  repeat (destruct H as [-> | H]); try subst r; eexists; split; reflexivity.
Qed.

(** The [y] is replaced by one of the digits [8], [9], [a], [b]. *)
Lemma uuid_digit_y (r : N) :
  (r < 16)%N ->
  exists c, uuid_digit "y" r = String c "" /\ in_class Variant c = true.
Proof.
  intros H. apply below_16 in H.
  repeat (destruct H as [-> | H]); try subst r; eexists; split; reflexivity.
Qed.

(** X5. Whatever the draws, [generateUUID] returns a well-formed version 4
    UUID: 36 characters in groups of 8, 4, 4, 4 and 12 lower-case hexadecimal
    digits separated by dashes, the third group starting with [4] and the
    fourth with [8], [9], [a] or [b]. *)
Lemma generateUUID_v4 (random : nat -> N) :
  (forall i, (random i < 16)%N) ->
  follows uuid_v4_layout (generateUUID random) = true.
Proof.
  intros Hr. unfold generateUUID. cbn [replace_xy Ascii.eqb Bool.eqb orb].
  repeat match goal with
         | |- context [uuid_digit "x" (random ?i)] =>
             let c := fresh "c" in
             let E := fresh "E" in
             let Hc := fresh "Hc" in
             destruct (uuid_digit_x (random i) (Hr i)) as [c [E Hc]]; rewrite E; clear E
         end.
  destruct (uuid_digit_y (random 15) (Hr 15)) as [v [E Hv]]. rewrite E. clear E.
  cbn [append uuid_v4_layout repeat app follows].
  repeat match goal with
         | H : in_class _ _ = true |- _ => rewrite H; clear H
         end.
  reflexivity.
Qed.

(** The draws 0, 1, 2, ... (modulo 16) give a well-formed identifier. *)
Lemma generateUUID_v4_witness :
  follows uuid_v4_layout (generateUUID (fun i => N.of_nat (i mod 16))) = true.
Proof.
  apply (generateUUID_v4 (fun i => N.of_nat (i mod 16))).
  intros i. pose proof (Nat.mod_upper_bound i 16). lia.
Defined.

End UuidFacts.

(** ** Ordering and paging *)

Module SQLFacts.
Import SQL.

Lemma in_firstn {A : Type} (x : A) (n : nat) (l : list A) :
  In x (firstn n l) -> In x l.
Proof.
  revert l. induction n as [|n IH]; intros [|a l] H; try destruct H.
  - now left.
  - right. now apply IH.
Qed.

Lemma in_skipn {A : Type} (x : A) (n : nat) (l : list A) :
  In x (skipn n l) -> In x l.
Proof.
  revert l. induction n as [|n IH]; intros [|a l] H; try exact H.
  right. now apply IH.
Qed.

Section OrderBy.
Context {A : Type}.
Variable before : A -> A -> bool.
Hypothesis before_asym : forall a b, before a b = true -> before b a = false.
Hypothesis before_trans :
  forall a b c, before a b = true -> before b c = true -> before a c = true.

Lemma insert_desc_perm (row : A) (sorted : list A) :
  Permutation (row :: sorted) (insert_desc before row sorted).
Proof.
  induction sorted as [|r rest IH]; simpl; [reflexivity|].
  destruct (before r row); [reflexivity|].
  rewrite perm_swap. now apply perm_skip.
Qed.

Lemma order_by_desc_perm (rows : list A) :
  Permutation rows (order_by_desc before rows).
Proof.
  induction rows as [|row rows IH]; simpl; [reflexivity|].
  rewrite <- insert_desc_perm. now apply perm_skip.
Qed.

Lemma insert_desc_descending (row : A) (sorted : list A) :
  descending before sorted -> descending before (insert_desc before row sorted).
Proof.
  unfold descending. induction 1 as [|r rest Hrest IH Hr]; simpl.
  - constructor; constructor.
  - destruct (before r row) eqn:E.
    + constructor; [now constructor|].
      constructor; [now apply before_asym|].
      rewrite Forall_forall in *. intros x Hx.
      destruct (before row x) eqn:F; [|reflexivity].
      rewrite <- (Hr x Hx). symmetry. now apply (before_trans r row x).
    + constructor; [exact IH|].
      rewrite Forall_forall in *. intros x Hx.
      apply (Permutation_in _ (Permutation_sym (insert_desc_perm row rest))) in Hx.
      destruct Hx as [<- | Hx]; [exact E | now apply Hr].
Qed.

(** [ORDER BY ... DESC] returns the rows in descending order. *)
Lemma order_by_desc_descending (rows : list A) :
  descending before (order_by_desc before rows).
Proof.
  induction rows as [|row rows IH]; simpl.
  - constructor.
  - now apply insert_desc_descending.
Qed.

(** A descending arrangement of rows of which one is strictly the newest
    starts with that row. *)
Lemma descending_head (rows sorted : list A) (newest : A) :
  Permutation rows sorted ->
  descending before sorted ->
  In newest rows ->
  (forall r, In r rows -> r = newest \/ before r newest = true) ->
  exists rest, sorted = newest :: rest.
Proof.
  intros Hperm Hsorted Hin Hnewest.
  destruct sorted as [|h rest].
  - apply (Permutation_in _ Hperm) in Hin. destruct Hin.
  - exists rest. f_equal.
    destruct (Hnewest h) as [-> | Hlt]; [|reflexivity|].
    + apply (Permutation_in _ (Permutation_sym Hperm)). now left.
    + apply StronglySorted_inv in Hsorted as [_ Hh].
      apply (Permutation_in _ Hperm) in Hin. destruct Hin as [-> | Hin].
      * reflexivity.
      * rewrite Forall_forall in Hh. rewrite (Hh newest Hin) in Hlt. discriminate.
Qed.

Lemma descending_skipn (sorted : list A) (n : nat) :
  descending before sorted -> descending before (skipn n sorted).
Proof.
  revert sorted. induction n as [|n IH]; intros sorted H; [exact H|].
  destruct sorted as [|r rest]; [exact H|].
  apply IH. now apply StronglySorted_inv in H.
Qed.

Lemma descending_firstn (sorted : list A) (n : nat) :
  descending before sorted -> descending before (firstn n sorted).
Proof.
  revert sorted. induction n as [|n IH]; intros sorted H; [constructor|].
  destruct sorted as [|r rest]; [constructor|].
  apply StronglySorted_inv in H as [Hrest Hr]. cbn [firstn].
  constructor; [now apply IH|].
  rewrite Forall_forall in *. intros x Hx. apply Hr. eapply in_firstn, Hx.
Qed.

(** A page of an ordered result: rows of the table, at most [limit] of
    them, in descending order. *)
Lemma page_of_order_by_desc (rows : list A) (limit offset : nat) :
  let page := limit_offset (order_by_desc before rows) limit offset in
  List.length page <= limit /\
  (forall r, In r page -> In r rows) /\
  descending before page.
Proof.
  unfold limit_offset. repeat split.
  - rewrite length_firstn. lia.
  - intros r Hr. apply in_firstn, in_skipn in Hr.
    now apply (Permutation_in _ (Permutation_sym (order_by_desc_perm rows))).
  - apply descending_firstn, descending_skipn, order_by_desc_descending.
Qed.

End OrderBy.

Lemma limit_offset_length {A : Type} (rows : list A) (limit offset : nat) :
  List.length (limit_offset rows limit offset) <= limit.
Proof. unfold limit_offset. rewrite length_firstn. lia. Qed.

Lemma string_ltb_asym (a b : string) : String.ltb a b = true -> String.ltb b a = false.
Proof.
  unfold String.ltb. rewrite (String.compare_antisym b a).
  now destruct (String.compare a b).
Qed.

Lemma string_ltb_trans (a b c : string) :
  String.ltb a b = true -> String.ltb b c = true -> String.ltb a c = true.
Proof.
  unfold String.ltb. intros Hab Hbc.
  assert (Lab : String_as_OT.lt a b).
  { apply String_as_OT.cmp_lt. unfold String_as_OT.cmp.
    now destruct (String.compare a b). }
  assert (Lbc : String_as_OT.lt b c).
  { apply String_as_OT.cmp_lt. unfold String_as_OT.cmp.
    now destruct (String.compare b c). }
  pose proof (String_as_OT.lt_trans _ _ _ Lab Lbc) as Lac.
  apply String_as_OT.cmp_lt in Lac. unfold String_as_OT.cmp in Lac. now rewrite Lac.
Qed.

End SQLFacts.

(** ** The worker's quote endpoints *)

Module WorkerFacts.
Import JS JSFacts Worker Spec.

(** The creation endpoint always answers: its reference loop returns. *)
Lemma post_quotes_returns (rt : Runtime) (env : Env) (db : Database) (request : value) :
  exists r db', post_quotes rt env db request = Some (r, db').
Proof.
  unfold post_quotes, create_quote.
  destruct (prop request "items") as [items|]; simpl; [|eauto].
  destruct (prop request "customer") as [customer|]; simpl; [|eauto].
  destruct (prop request "comments") as [comments|]; simpl; [|eauto].
  destruct (negb (truthy items) || negb (isArray items) || (array_length items =? 0));
    [eauto|].
  destruct (negb (truthy customer)); [eauto|].
  destruct (reduce_total rt (elements_of items) 0) as [totalAmount|]; simpl; [|eauto].
  destruct (AllocatorFacts.generateReferenceNumber_returns (year env) (map reference_number db))
    as [ref ->].
  match goal with |- context [insert_quote ?d ?r] => destruct (insert_quote d r) end;
    simpl; eauto.
Qed.

(** *** Lookup by reference *)

(** C3. The lookup endpoint answers 400 to [GT-2025-10000], whatever the
    table holds: a reference that matches the specification's pattern
    [^GT-\d{4}-\d{4,}$], and that the allocator hands out as the 10000th of
    its year. *)
Theorem get_quote_refuses_five_digit_sequence (rt : Runtime) (env : Env) (db : Database) :
  test Spec.reference_pattern "GT-2025-10000" = true /\
  reference 2025 10000 = "GT-2025-10000" /\
  get_quote rt db "/api/quotes/GT-2025-10000"
    = jsonResponse
        (failure "Invalid reference number format. Expected: GT-YYYY-NNNN") 400 /\
  handleQuotes rt env db
      {| method := "GET"; pathname := "/api/quotes/GT-2025-10000";
         searchParams := []; body := VUndefined |}
    = Some (jsonResponse
              (failure "Invalid reference number format. Expected: GT-YYYY-NNNN") 400,
            db).
Proof.
  repeat split; vm_compute; reflexivity.
Qed.

(** The format check as the expression is written: a reference the
    allocator hands out is refused, and the text the expression does accept
    has two backslashes in it. *)
Lemma reference_format_as_written :
  test reference_format "GT-2025-0001" = false /\
  test reference_format "GT-\dddd-\dddd" = true.
Proof. split; reflexivity. Qed.

(** *** Creation: validation *)

Lemma invalid_items_iff (items : value) :
  negb (truthy items) || negb (isArray items) || (array_length items =? 0)
  = negb (has_items items).
Proof.
  destruct items as [| | b | x | t | elements | props]; simpl;
    try reflexivity; try (now destruct (negb _)).
  now destruct elements.
Qed.

(** Property reads on the request either all succeed or all throw. *)
Lemma prop_returns (request : value) (key key' : string) (v : value) :
  prop request key = Returns v ->
  prop request key' = Returns (get_field request key').
Proof. destruct request; simpl; intros H; try discriminate; reflexivity. Qed.

Lemma insert_quote_appends (db db' : Database) (row : QuoteRow) :
  insert_quote db row = Returns db' -> db' = (db ++ [row])%list.
Proof.
  unfold insert_quote.
  destruct (existsb _ db); [discriminate|].
  destruct (existsb _ db); [discriminate|].
  now intros [= <-].
Qed.

(** The answer of the creation endpoint once [items] and [customer] have
    passed the two checks. *)
Lemma create_quote_validated
  (rt : Runtime) (env : Env) (db : Database) (request items customer : value) :
  prop request "items" = Returns items ->
  has_items items = true ->
  get_field request "customer" = customer ->
  truthy customer = true ->
  let answer := post_quotes rt env db request in
  answer = Some (jsonResponse (failure "Failed to create quote") 500, db)
  \/ exists quote row,
       get_field quote "currency" = VStr "ZAR" /\ currency row = "ZAR" /\
       answer = Some (jsonResponse
                        (VObj [ ("success", VBool true);
                                ("quote", quote);
                                ("message", VStr "Quote created successfully") ])
                        201,
                      (db ++ [row])%list).
Proof.
  intros Hitems Hhas Hcustomer Htruthy. unfold post_quotes, create_quote.
  rewrite Hitems.
  rewrite (prop_returns request "items" "customer" items Hitems).
  rewrite (prop_returns request "items" "comments" items Hitems).
  cbn [bind]. rewrite invalid_items_iff, Hhas, Hcustomer, Htruthy. cbn [negb].
  destruct (reduce_total rt (elements_of items) 0) as [totalAmount|]; cbn [bind];
    [|now left].
  destruct (AllocatorFacts.generateReferenceNumber_returns (year env) (map reference_number db))
    as [ref ->].
  match goal with |- context [insert_quote ?d ?r] =>
    destruct (insert_quote d r) as [db'|] eqn:E end; cbn [bind]; [|now left].
  apply insert_quote_appends in E. subst db'.
  right. eexists. eexists. repeat split; reflexivity.
Qed.

(** A request that is [null] or [undefined]: the destructuring throws. *)
Lemma post_quotes_no_request (rt : Runtime) (env : Env) (db : Database) (request : value) :
  prop request "items" = Throws ->
  post_quotes rt env db request
    = Some (jsonResponse (failure "Failed to create quote") 500, db).
Proof.
  intros H. unfold post_quotes, create_quote. now rewrite H.
Qed.

Lemma post_quotes_no_items
  (rt : Runtime) (env : Env) (db : Database) (request items : value) :
  prop request "items" = Returns items ->
  has_items items = false ->
  post_quotes rt env db request
    = Some (jsonResponse (failure "Quote must have at least one item") 400, db).
Proof.
  intros Hitems Hhas. unfold post_quotes, create_quote. rewrite Hitems.
  rewrite (prop_returns request "items" "customer" items Hitems).
  rewrite (prop_returns request "items" "comments" items Hitems).
  cbn [bind]. now rewrite invalid_items_iff, Hhas.
Qed.

Lemma post_quotes_no_customer
  (rt : Runtime) (env : Env) (db : Database) (request items : value) :
  prop request "items" = Returns items ->
  has_items items = true ->
  truthy (get_field request "customer") = false ->
  post_quotes rt env db request
    = Some (jsonResponse (failure "Customer information is required") 400, db).
Proof.
  intros Hitems Hhas Hcustomer. unfold post_quotes, create_quote. rewrite Hitems.
  rewrite (prop_returns request "items" "customer" items Hitems).
  rewrite (prop_returns request "items" "comments" items Hitems).
  cbn [bind]. now rewrite invalid_items_iff, Hhas, Hcustomer.
Qed.

(** C4, as the code has it. The creation endpoint answers 400 with
    [Quote must have at least one item] exactly when [items] is missing, is
    not an array, or is an empty array. Nothing else about the items is
    inspected: no price and no quantity can cause that answer. *)
Theorem post_quotes_items_validation
  (rt : Runtime) (env : Env) (db : Database) (request : value) :
  post_quotes rt env db request
    = Some (jsonResponse (failure "Quote must have at least one item") 400, db)
  <-> exists items, prop request "items" = Returns items /\ has_items items = false.
Proof.
  split.
  - intros H. destruct (prop request "items") as [items|] eqn:Hitems.
    2:{ rewrite (post_quotes_no_request _ _ _ _ Hitems) in H. discriminate. }
    exists items. split; [reflexivity|].
    destruct (has_items items) eqn:Hhas; [exfalso | reflexivity].
    destruct (truthy (get_field request "customer")) eqn:Hcustomer.
    + destruct (create_quote_validated rt env db request items _
                  Hitems Hhas eq_refl Hcustomer) as [E | [quote [row [_ [_ E]]]]];
        rewrite E in H; discriminate.
    + rewrite (post_quotes_no_customer _ _ _ _ _ Hitems Hhas Hcustomer) in H.
      discriminate.
  - intros [items [Hitems Hhas]]. now apply (post_quotes_no_items _ _ _ _ items).
Qed.

(** The request with a negative price, a zero quantity and a fractional
    quantity is created: the answer is 201, the total 15. *)
Lemma post_quotes_accepts_bad_items :
  PrimFloat.ltb (-5) 0 = true /\
  PrimFloat.leb 0 0 = true /\
  PrimFloat.ltb 1 1.5 = true /\ PrimFloat.ltb 1.5 2 = true /\
  option_map (fun answer => status_code (fst answer))
    (post_quotes sample_runtime sample_env [] bad_items_request) = Some 201 /\
  option_map (fun answer => get_field (get_field (json (fst answer)) "quote") "totalAmount")
    (post_quotes sample_runtime sample_env [] bad_items_request) = Some (VNum 15).
Proof.
  repeat split; vm_compute; reflexivity.
Qed.

(** C7, as the code has it. The creation endpoint answers 400 with
    [Customer information is required] exactly when [items] has passed its
    check and [customer] is absent or another falsy value. The email is not
    inspected, nor anything else inside [customer]: two requests with the same
    items and comments, each with a customer that is present, get answers of
    the same status and message and leave the same references stored. *)
Theorem post_quotes_customer_validation
  (rt : Runtime) (env : Env) (db : Database) (request : value) :
  (post_quotes rt env db request
     = Some (jsonResponse (failure "Customer information is required") 400, db)
   <-> exists items,
         prop request "items" = Returns items /\ has_items items = true /\
         truthy (get_field request "customer") = false) /\
  (forall request',
     prop request' "items" = prop request "items" ->
     get_field request' "comments" = get_field request "comments" ->
     truthy (get_field request "customer") = true ->
     truthy (get_field request' "customer") = true ->
     let outcome := fun answer : Response * Database =>
       (status_code (fst answer),
        get_field (json (fst answer)) "message",
        map reference_number (snd answer)) in
     option_map outcome (post_quotes rt env db request')
     = option_map outcome (post_quotes rt env db request)).
Proof.
  split; [split|].
  - intros H. destruct (prop request "items") as [items|] eqn:Hitems.
    2:{ rewrite (post_quotes_no_request _ _ _ _ Hitems) in H. discriminate. }
    exists items. split; [reflexivity|].
    destruct (has_items items) eqn:Hhas.
    2:{ rewrite (post_quotes_no_items _ _ _ _ _ Hitems Hhas) in H. discriminate. }
    split; [reflexivity|].
    destruct (truthy (get_field request "customer")) eqn:Hcustomer; [exfalso | reflexivity].
    destruct (create_quote_validated rt env db request items _
                Hitems Hhas eq_refl Hcustomer) as [E | [quote [row [_ [_ E]]]]];
      rewrite E in H; discriminate.
  - intros [items [Hitems [Hhas Hcustomer]]].
    now apply (post_quotes_no_customer _ _ _ _ items).
  - intros request' Hitems Hcomments Hcustomer Hcustomer'. cbn zeta.
    unfold post_quotes, create_quote. rewrite Hitems.
    destruct (prop request "items") as [items|] eqn:E; [|reflexivity].
    rewrite (prop_returns request' "items" "customer" items Hitems).
    rewrite (prop_returns request' "items" "comments" items Hitems).
    rewrite (prop_returns request "items" "customer" items E).
    rewrite (prop_returns request "items" "comments" items E).
    cbn [bind]. rewrite Hcomments, Hcustomer, Hcustomer'.
    destruct (negb (truthy items) || negb (isArray items) || (array_length items =? 0));
      [reflexivity|].
    cbn [negb].
    destruct (reduce_total rt (elements_of items) 0) as [totalAmount|]; cbn [bind];
      [|reflexivity].
    destruct (generateReferenceNumber (year env) (map reference_number db))
      as [referenceNumber|]; [|reflexivity].
    unfold insert_quote. cbn [id reference_number].
    destruct (existsb (fun r => String.eqb (id r) (uuid env)) db); [reflexivity|].
    destruct (existsb (fun r => String.eqb (reference_number r) referenceNumber) db);
      [reflexivity|].
    cbn. now rewrite !map_app.
Qed.

(** The request whose email has no [@] is created: the answer is 201. *)
Lemma post_quotes_accepts_bad_email :
  get_field (get_field bad_email_request "customer") "email" = VStr "not-an-email" /\
  string_forall (fun c => negb (Ascii.eqb c "@")) "not-an-email" = true /\
  option_map (fun answer => status_code (fst answer))
    (post_quotes sample_runtime sample_env [] bad_email_request) = Some 201.
Proof.
  repeat split; vm_compute; reflexivity.
Qed.

(** *** Creation: the stored and returned quote *)

(** C10. Every quote the creation endpoint creates (answer 201) is
    returned with the currency [ZAR] and stored in a row whose currency is
    [ZAR], whatever the request holds. *)
Theorem post_quotes_currency_ZAR
  (rt : Runtime) (env : Env) (db db' : Database) (request : value) (r : Response) :
  post_quotes rt env db request = Some (r, db') ->
  status_code r = 201 ->
  get_field (get_field (json r) "quote") "currency" = VStr "ZAR" /\
  exists row, db' = (db ++ [row])%list /\ currency row = "ZAR".
Proof.
  intros H Hcode.
  destruct (prop request "items") as [items|] eqn:Hitems.
  2:{ rewrite (post_quotes_no_request _ _ _ _ Hitems) in H.
      injection H as <- <-. discriminate. }
  destruct (has_items items) eqn:Hhas.
  2:{ rewrite (post_quotes_no_items _ _ _ _ _ Hitems Hhas) in H.
      injection H as <- <-. discriminate. }
  destruct (truthy (get_field request "customer")) eqn:Hcustomer.
  2:{ rewrite (post_quotes_no_customer _ _ _ _ _ Hitems Hhas Hcustomer) in H.
      injection H as <- <-. discriminate. }
  destruct (create_quote_validated rt env db request items _
              Hitems Hhas eq_refl Hcustomer) as [E | [quote [row [Hq [Hr E]]]]];
    rewrite E in H; injection H as <- <-.
  - discriminate.
  - split; [exact Hq | now exists row].
Qed.

(** A request that asks for [USD] is created with [ZAR]. *)
Lemma post_quotes_currency_ZAR_witness :
  get_field usd_request "currency" = VStr "USD" /\
  exists r db',
    post_quotes sample_runtime sample_env [] usd_request = Some (r, db') /\
    get_field (get_field (json r) "quote") "currency" = VStr "ZAR" /\
    exists row, db' = ([] ++ [row])%list /\ currency row = "ZAR".
Proof.
  split; [reflexivity|].
  destruct (post_quotes sample_runtime sample_env [] usd_request) as [[r db']|] eqn:E;
    [|vm_compute in E; discriminate].
  exists r, db'. split; [reflexivity|].
  apply (post_quotes_currency_ZAR sample_runtime sample_env [] db' usd_request r E).
  vm_compute in E. injection E as <- _. reflexivity.
Defined.

(** C9, as the code has it. On an empty table the request of Scenario A is
    answered 201; the quote returned and the row stored hold the total 700
    (the sum over the items of price times quantity) under [totalAmount], the
    status [pending], the currency [ZAR] and the reference
    [GT-<year>-0001]. The quote has no [subtotal]. *)
Theorem post_quotes_scenario_A (rt : Runtime) (env : Env) :
  let referenceNumber := "GT-" ++ toString (year env) ++ "-0001" in
  let quote :=
    VObj [ ("id", VStr (uuid env));
           ("referenceNumber", VStr referenceNumber);
           ("customer", customer_Jo "jo@example.com");
           ("items", VArr [item "Course" 350 2]);
           ("totalAmount", VNum 700);
           ("currency", VStr "ZAR");
           ("status", VStr "pending");
           ("comments", VUndefined);
           ("createdAt", VStr (now env)) ] in
  post_quotes rt env [] scenario_A
    = Some (jsonResponse
              (VObj [ ("success", VBool true);
                      ("quote", quote);
                      ("message", VStr "Quote created successfully") ])
              201,
            [ {| id := uuid env;
                 reference_number := referenceNumber;
                 customer_data := JSON_stringify rt (customer_Jo "jo@example.com");
                 items := JSON_stringify rt (VArr [item "Course" 350 2]);
                 total_amount := 700;
                 currency := "ZAR";
                 status := "pending";
                 comments := VNull;
                 created_at := current_timestamp env;
                 updated_at := current_timestamp env |} ]) /\
  (350 * 2 + 0 = 700)%float /\
  get_field quote "totalAmount" = VNum 700 /\
  get_field quote "status" = VStr "pending" /\
  get_field quote "referenceNumber" = VStr referenceNumber /\
  get_field quote "subtotal" = VUndefined.
Proof.
  repeat split.
Qed.

(** In the answer to Scenario A the quote's [subtotal] is [undefined]: it
    is not equal to the total, 700. *)
Lemma post_quotes_scenario_A_no_subtotal :
  exists quote,
    option_map (fun answer => get_field (json (fst answer)) "quote")
      (post_quotes sample_runtime sample_env [] scenario_A) = Some quote /\
    get_field quote "totalAmount" = VNum 700 /\
    get_field quote "subtotal" = VUndefined /\
    get_field quote "subtotal" <> get_field quote "totalAmount".
Proof.
  eexists. split; [vm_compute; reflexivity|].
  repeat split. discriminate.
Qed.

(** *** Listing *)

Lemma requested_limit_default (params : list (string * string)) :
  searchParams_get params "limit" = None -> requested_limit params = 50%Z.
Proof. unfold requested_limit. now intros ->. Qed.

Lemma requested_offset_default (params : list (string * string)) :
  searchParams_get params "offset" = None -> requested_offset params = 0%Z.
Proof. unfold requested_offset. now intros ->. Qed.

(** A limit that reads as a number other than 0 is the limit requested. *)
Lemma requested_limit_number (params : list (string * string)) (n : Z) :
  parseInt_param (searchParams_get params "limit") = Some n ->
  n <> 0%Z ->
  requested_limit params = n.
Proof.
  unfold requested_limit. intros -> Hn. simpl.
  destruct (Z.eqb_spec n 0); [contradiction | reflexivity].
Qed.

(** A requested limit outside [1 .. 100] is answered 400. *)
Lemma get_quotes_limit_out_of_range
  (rt : Runtime) (db : Database) (params : list (string * string)) :
  (requested_limit params < 1 \/ 100 < requested_limit params)%Z ->
  get_quotes rt db params
    = jsonResponse (failure "Limit must be between 1 and 100") 400.
Proof.
  intros H. unfold get_quotes, list_page.
  destruct ((requested_limit params <? 1)%Z || (requested_limit params >? 100)%Z) eqn:E;
    [reflexivity|].
  apply orb_false_iff in E as [E1 E2]. lia.
Qed.

(** A requested limit within [1 .. 100] is never answered 400. *)
Lemma get_quotes_limit_in_range
  (rt : Runtime) (db : Database) (params : list (string * string)) :
  (1 <= requested_limit params <= 100)%Z ->
  status_code (get_quotes rt db params) <> 400.
Proof.
  intros H. unfold get_quotes, list_page.
  destruct ((requested_limit params <? 1)%Z || (requested_limit params >? 100)%Z) eqn:E.
  - apply orb_true_iff in E as [E | E]; lia.
  - destruct (map_rows rt _); simpl; discriminate.
Qed.

(** C8. The listing endpoint does not refuse [limit=0]: [0] is falsy, so
    [parseInt('0') || 50] is 50, the request is answered like one with no
    limit at all, and never with 400. *)
Theorem get_quotes_limit_zero_replaced (rt : Runtime) (env : Env) (db : Database) :
  parseInt "0" = Some 0%Z /\
  requested_limit [("limit", "0")] = 50%Z /\
  get_quotes rt db [("limit", "0")] = get_quotes rt db [] /\
  status_code (get_quotes rt db [("limit", "0")]) <> 400 /\
  handleQuotes rt env []
      {| method := "GET"; pathname := "/api/quotes";
         searchParams := [("limit", "0")]; body := VUndefined |}
    = Some (jsonResponse
              (VObj [ ("success", VBool true);
                      ("quotes", VArr []);
                      ("pagination",
                       VObj [ ("limit", VInt 50);
                              ("offset", VInt 0);
                              ("count", VInt 0) ]) ])
              200,
            []).
Proof.
  repeat split.
  apply get_quotes_limit_in_range. vm_compute. split; discriminate.
Qed.

(** The rows the worker's listing query selects are in descending order of
    [created_at], at most [limit] of them, all rows of the table. *)
Lemma select_page_descending (db : Database) (limit offset : Z) :
  exists sorted,
    Permutation db sorted /\
    SQL.descending (fun a b => String.ltb (created_at a) (created_at b)) sorted /\
    select_page db limit offset
      = firstn (Z.to_nat limit) (skipn (Z.to_nat offset) sorted).
Proof.
  exists (order_by_created_at_desc db). repeat split.
  - apply SQLFacts.order_by_desc_perm.
  - apply SQLFacts.order_by_desc_descending.
    + intros a b. apply SQLFacts.string_ltb_asym.
    + intros a b c. apply SQLFacts.string_ltb_trans.
Qed.

(** *** Creation: what it stores *)

Lemma insert_quote_fresh (db db' : Database) (row : QuoteRow) :
  insert_quote db row = Returns db' ->
  db' = (db ++ [row])%list /\
  ~ In (id row) (map id db) /\
  ~ In (reference_number row) (map reference_number db).
Proof.
  unfold insert_quote.
  destruct (existsb (fun r => String.eqb (id r) (id row)) db) eqn:Eid; [discriminate|].
  destruct (existsb (fun r => String.eqb (reference_number r) (reference_number row)) db)
    eqn:Eref; [discriminate|].
  intros [= <-]. split; [reflexivity|]. split.
  - intros H. apply in_map_iff in H as [r [E Hr]].
    apply not_true_iff_false in Eid. apply Eid, existsb_exists.
    exists r. split; [assumption | now apply String.eqb_eq].
  - intros H. apply in_map_iff in H as [r [E Hr]].
    apply not_true_iff_false in Eref. apply Eref, existsb_exists.
    exists r. split; [assumption | now apply String.eqb_eq].
Qed.

Lemma insert_quote_conflict (db : Database) (row : QuoteRow) :
  In (id row) (map id db) \/ In (reference_number row) (map reference_number db) ->
  insert_quote db row = Throws.
Proof.
  intros H. destruct (insert_quote db row) as [db'|] eqn:E; [exfalso | reflexivity].
  apply insert_quote_fresh in E as [_ [Hid Href]]. tauto.
Qed.

(** A null among the items makes the total throw. *)
Lemma reduce_total_null (rt : Runtime) (elements : list value) (sum : float) :
  In VNull elements -> reduce_total rt elements sum = Throws.
Proof.
  revert sum. induction elements as [|item rest IH]; intros sum Hin; [destruct Hin|].
  destruct Hin as [-> | Hin]; [reflexivity|].
  cbn [reduce_total]. destruct (prop item "price"); [|reflexivity].
  cbn [bind]. destruct (prop item "quantity"); [|reflexivity].
  cbn [bind]. now apply IH.
Qed.

(** What an answer of the creation endpoint says about the table: any
    answer but 201 leaves it as it was; with 201 exactly one row has been
    added, under the identifier drawn and the reference allocated from the
    references of the table, neither of which the table held before. *)
Lemma post_quotes_effect
  (rt : Runtime) (env : Env) (db db' : Database) (request : value) (r : Response) :
  post_quotes rt env db request = Some (r, db') ->
  (status_code r <> 201 /\ db' = db)
  \/ (status_code r = 201 /\
      exists row,
        db' = (db ++ [row])%list /\
        id row = uuid env /\
        generateReferenceNumber (year env) (map reference_number db)
          = Some (reference_number row) /\
        get_field (get_field (json r) "quote") "referenceNumber"
          = VStr (reference_number row) /\
        status row = "pending" /\
        ~ In (id row) (map id db) /\
        ~ In (reference_number row) (map reference_number db)).
Proof.
  unfold post_quotes, create_quote.
  destruct (prop request "items") as [items|]; cbn [bind];
    [|intros [= <- <-]; left; split; [discriminate | reflexivity]].
  destruct (prop request "customer") as [customer|]; cbn [bind];
    [|intros [= <- <-]; left; split; [discriminate | reflexivity]].
  destruct (prop request "comments") as [comments|]; cbn [bind];
    [|intros [= <- <-]; left; split; [discriminate | reflexivity]].
  destruct (negb (truthy items) || negb (isArray items) || (array_length items =? 0));
    [intros [= <- <-]; left; split; [discriminate | reflexivity]|].
  destruct (negb (truthy customer));
    [intros [= <- <-]; left; split; [discriminate | reflexivity]|].
  destruct (reduce_total rt (elements_of items) 0) as [totalAmount|]; cbn [bind];
    [|intros [= <- <-]; left; split; [discriminate | reflexivity]].
  destruct (generateReferenceNumber (year env) (map reference_number db))
    as [referenceNumber|] eqn:Eref; [|discriminate].
  match goal with |- context [insert_quote ?d ?row] =>
    destruct (insert_quote d row) as [db1|] eqn:E end; cbn [bind];
    [|intros [= <- <-]; left; split; [discriminate | reflexivity]].
  intros [= <- <-]. right. split; [reflexivity|].
  apply insert_quote_fresh in E as [-> [Hid Href]].
  eexists. repeat split; [exact Hid | exact Href].
Qed.

(** X7. The creation endpoint keeps identifiers and references unique: a table
    in which no two rows share an [id] or a [reference_number] is still such a
    table after any request. *)
Lemma post_quotes_keeps_unique
  (rt : Runtime) (env : Env) (db db' : Database) (request : value) (r : Response) :
  NoDup (map id db) ->
  NoDup (map reference_number db) ->
  post_quotes rt env db request = Some (r, db') ->
  NoDup (map id db') /\ NoDup (map reference_number db').
Proof.
  intros Hid Href H.
  apply post_quotes_effect in H as [[_ ->] | [_ [row [-> [_ [_ [_ [_ [Hi Hr]]]]]]]]].
  - now split.
  - rewrite !map_app. cbn [map]. split.
    + apply NoDup_app; [assumption | repeat constructor; intros [] |].
      intros x Hx [<- | []]. contradiction.
    + apply NoDup_app; [assumption | repeat constructor; intros [] |].
      intros x Hx [<- | []]. contradiction.
Qed.

(** Scenario A on an empty table keeps identifiers and references unique. *)
Lemma post_quotes_keeps_unique_witness :
  exists r db',
    post_quotes sample_runtime sample_env [] scenario_A = Some (r, db') /\
    NoDup (map id db') /\ NoDup (map reference_number db').
Proof.
  destruct (post_quotes sample_runtime sample_env [] scenario_A) as [[r db']|] eqn:E;
    [|vm_compute in E; discriminate].
  exists r, db'. split; [reflexivity|].
  apply (post_quotes_keeps_unique sample_runtime sample_env [] db' scenario_A r);
    [constructor | constructor | exact E].
Defined.

(** The answer to Scenario A on an empty table, and the row it adds. *)
Lemma post_quotes_effect_witness :
  exists r db',
    post_quotes sample_runtime sample_env [] scenario_A = Some (r, db') /\
    ((status_code r <> 201 /\ db' = [])
     \/ (status_code r = 201 /\
         exists row,
           db' = ([] ++ [row])%list /\
           id row = uuid sample_env /\
           generateReferenceNumber (year sample_env) (map reference_number [])
             = Some (reference_number row) /\
           get_field (get_field (json r) "quote") "referenceNumber"
             = VStr (reference_number row) /\
           status row = "pending" /\
           ~ In (id row) (map id []) /\
           ~ In (reference_number row) (map reference_number []))).
Proof.
  destruct (post_quotes sample_runtime sample_env [] scenario_A) as [[r db']|] eqn:E;
    [|vm_compute in E; discriminate].
  exists r, db'. split; [reflexivity|].
  exact (post_quotes_effect sample_runtime sample_env [] db' scenario_A r E).
Defined.

(** X8. Two requests answered 201 one after the other carry different
    references. *)
Lemma post_quotes_successive_references
  (rt : Runtime) (env1 env2 : Env) (db0 db1 db2 : Database)
  (request1 request2 : value) (r1 r2 : Response) :
  post_quotes rt env1 db0 request1 = Some (r1, db1) ->
  status_code r1 = 201 ->
  post_quotes rt env2 db1 request2 = Some (r2, db2) ->
  status_code r2 = 201 ->
  get_field (get_field (json r1) "quote") "referenceNumber"
  <> get_field (get_field (json r2) "quote") "referenceNumber".
Proof.
  intros H1 C1 H2 C2.
  apply post_quotes_effect in H1 as [[N1 _] | [_ [row1 [-> [_ [_ [R1 _]]]]]]];
    [contradiction|].
  apply post_quotes_effect in H2 as [[N2 _] | [_ [row2 [_ [_ [_ [R2 [_ [_ F2]]]]]]]]];
    [contradiction|].
  rewrite R1, R2. intros [= E]. apply F2. rewrite <- E, map_app, in_app_iff.
  right. now left.
Qed.

(** Scenario A submitted twice: [GT-2025-0001], then [GT-2025-0002]. *)
Lemma post_quotes_successive_references_witness :
  exists r1 db1 r2 db2,
    post_quotes sample_runtime sample_env [] scenario_A = Some (r1, db1) /\
    post_quotes sample_runtime sample_env_later db1 scenario_A = Some (r2, db2) /\
    get_field (get_field (json r2) "quote") "referenceNumber" = VStr "GT-2025-0002" /\
    get_field (get_field (json r1) "quote") "referenceNumber"
    <> get_field (get_field (json r2) "quote") "referenceNumber".
Proof.
  destruct (post_quotes sample_runtime sample_env [] scenario_A) as [[r1 db1]|] eqn:E1;
    [|vm_compute in E1; discriminate].
  destruct (post_quotes sample_runtime sample_env_later db1 scenario_A) as [[r2 db2]|] eqn:E2.
  2:{ vm_compute in E1. injection E1 as <- <-. vm_compute in E2. discriminate. }
  exists r1, db1, r2, db2. split; [reflexivity|]. split; [exact E2|]. split.
  - vm_compute in E1. injection E1 as <- <-. vm_compute in E2. injection E2 as <- <-.
    reflexivity.
  - apply (post_quotes_successive_references sample_runtime sample_env sample_env_later
             [] db1 db2 scenario_A scenario_A r1 r2 E1); [|exact E2|].
    + vm_compute in E1. injection E1 as <- _. reflexivity.
    + vm_compute in E1. injection E1 as <- <-. vm_compute in E2. injection E2 as <- _.
      reflexivity.
Defined.

(** X9. When the identifier drawn is already the [id] of a row, nothing is
    created: the answer is not 201 and the table is left as it was. *)
Lemma post_quotes_identifier_taken
  (rt : Runtime) (env : Env) (db db' : Database) (request : value) (r : Response) :
  In (uuid env) (map id db) ->
  post_quotes rt env db request = Some (r, db') ->
  status_code r <> 201 /\ db' = db.
Proof.
  intros Hin H.
  apply post_quotes_effect in H as [H | [_ [row [_ [Hid [_ [_ [_ [Hfresh _]]]]]]]]];
    [exact H|].
  exfalso. apply Hfresh. now rewrite Hid.
Qed.

(** Scenario A once more under the identifier of the row it created. *)
Lemma post_quotes_identifier_taken_witness :
  exists r db',
    post_quotes sample_runtime sample_env table_after_A scenario_A = Some (r, db') /\
    status_code r = 500 /\
    status_code r <> 201 /\ db' = table_after_A.
Proof.
  destruct (post_quotes sample_runtime sample_env table_after_A scenario_A)
    as [[r db']|] eqn:E; [|vm_compute in E; discriminate].
  exists r, db'. split; [reflexivity|]. split.
  - vm_compute in E. injection E as <- _. reflexivity.
  - apply (post_quotes_identifier_taken sample_runtime sample_env table_after_A db'
             scenario_A r); [|exact E].
    vm_compute. now left.
Defined.

(** X10. A [null] among the items of an otherwise valid request is answered
    500, not 400, and nothing is stored. *)
Lemma post_quotes_null_item
  (rt : Runtime) (env : Env) (db : Database) (request : value) (elements : list value) :
  prop request "items" = Returns (VArr elements) ->
  In VNull elements ->
  truthy (get_field request "customer") = true ->
  post_quotes rt env db request
    = Some (jsonResponse (failure "Failed to create quote") 500, db).
Proof.
  intros Hitems Hnull Hcustomer. unfold post_quotes, create_quote. rewrite Hitems.
  rewrite (prop_returns request "items" "customer" _ Hitems).
  rewrite (prop_returns request "items" "comments" _ Hitems).
  cbn [bind]. rewrite invalid_items_iff.
  assert (Hhas : has_items (VArr elements) = true)
    by (destruct elements; [destruct Hnull | reflexivity]).
  rewrite Hhas, Hcustomer. cbn [negb elements_of].
  now rewrite (reduce_total_null rt elements _ Hnull).
Qed.

Lemma post_quotes_null_item_witness :
  post_quotes sample_runtime sample_env [] null_item_request
    = Some (jsonResponse (failure "Failed to create quote") 500, []).
Proof.
  apply (post_quotes_null_item sample_runtime sample_env [] null_item_request [VNull]).
  - reflexivity.
  - now left.
  - reflexivity.
Defined.

(** *** Listing: the page *)

(** The listing endpoint answers 400 exactly when the requested limit is
    outside [1 .. 100]. *)
Lemma get_quotes_limit_check
  (rt : Runtime) (db : Database) (params : list (string * string)) :
  status_code (get_quotes rt db params) = 400
  <-> (requested_limit params < 1 \/ 100 < requested_limit params)%Z.
Proof.
  split.
  - intros H.
    destruct (Z.lt_ge_cases (requested_limit params) 1) as [|Hlo]; [now left|].
    destruct (Z.lt_ge_cases 100 (requested_limit params)) as [|Hhi]; [now right|].
    exfalso. apply (get_quotes_limit_in_range rt db params); [lia | exact H].
  - intros H. now rewrite (get_quotes_limit_out_of_range rt db params H).
Qed.

(** X11. The rows the listing query selects, for a limit that is not negative,
    are rows of the table, at most [limit] of them, no row created strictly
    before one that follows it. *)
Lemma select_page_rows (db : Database) (limit offset : Z) :
  (0 <= limit)%Z ->
  let page := select_page db limit offset in
  (Z.of_nat (List.length page) <= limit)%Z /\
  (forall r, In r page -> In r db) /\
  SQL.descending (fun a b => String.ltb (created_at a) (created_at b)) page.
Proof.
  intros Hlimit. cbn zeta.
  destruct (SQLFacts.page_of_order_by_desc
              (fun a b => String.ltb (created_at a) (created_at b))
              (fun a b => SQLFacts.string_ltb_asym _ _)
              (fun a b c => SQLFacts.string_ltb_trans _ _ _)
              db (Z.to_nat limit) (Z.to_nat offset)) as [Hlen [Hin Hsorted]].
  split; [|split; assumption].
  unfold select_page, limit_offset, order_by_created_at_desc. lia.
Qed.

Lemma select_page_rows_witness :
  let page := select_page [first_row; second_row] 1 1 in
  (Z.of_nat (List.length page) <= 1)%Z /\
  (forall r, In r page -> In r [first_row; second_row]) /\
  SQL.descending (fun a b => String.ltb (created_at a) (created_at b)) page.
Proof.
  apply (select_page_rows [first_row; second_row] 1 1). lia.
Defined.

Lemma map_rows_length (rt : Runtime) (rows : list QuoteRow) (quotes : list value) :
  map_rows rt rows = Returns quotes -> List.length quotes = List.length rows.
Proof.
  revert quotes. induction rows as [|r rest IH]; intros quotes; cbn [map_rows].
  - now intros [= <-].
  - destruct (listed_quote rt r); [|discriminate]. cbn [bind].
    destruct (map_rows rt rest) as [qs|]; [|discriminate]. cbn [bind].
    intros [= <-]. cbn [List.length]. now rewrite (IH qs eq_refl).
Qed.

(** X12. A listing answered 200 carries an array of quotes, as many as its
    [count] says: never more than the limit asked for, which is at most 100,
    and never more than the table holds. *)
Lemma get_quotes_page (rt : Runtime) (db : Database) (params : list (string * string)) :
  status_code (get_quotes rt db params) = 200 ->
  exists quotes,
    get_field (json (get_quotes rt db params)) "quotes" = VArr quotes /\
    get_field (get_field (json (get_quotes rt db params)) "pagination") "count"
      = VInt (Z.of_nat (List.length quotes)) /\
    (Z.of_nat (List.length quotes) <= requested_limit params <= 100)%Z /\
    List.length quotes <= List.length db.
Proof.
  unfold get_quotes, list_page.
  destruct ((requested_limit params <? 1)%Z || (requested_limit params >? 100)%Z) eqn:E;
    [discriminate|].
  apply orb_false_iff in E as [Elo Ehi].
  destruct (map_rows rt (select_page db (requested_limit params) (requested_offset params)))
    as [quotes|] eqn:M; [|discriminate].
  intros _. exists quotes. apply map_rows_length in M.
  split; [reflexivity|]. split; [reflexivity|].
  rewrite M. unfold select_page, limit_offset, SQL.limit_offset, order_by_created_at_desc.
  rewrite length_firstn, length_skipn.
  rewrite <- (Permutation_length
                (SQLFacts.order_by_desc_perm
                   (fun a b => String.ltb (created_at a) (created_at b)) db)).
  split; lia.
Qed.

(** The two rows listed with the default limit. *)
Lemma get_quotes_page_witness :
  exists quotes,
    get_field (json (get_quotes sample_runtime [first_row; second_row] [])) "quotes"
      = VArr quotes /\
    get_field (get_field (json (get_quotes sample_runtime [first_row; second_row] []))
                 "pagination") "count"
      = VInt (Z.of_nat (List.length quotes)) /\
    (Z.of_nat (List.length quotes) <= requested_limit [] <= 100)%Z /\
    List.length quotes <= List.length [first_row; second_row].
Proof.
  apply (get_quotes_page sample_runtime [first_row; second_row] []). reflexivity.
Defined.

(** X13. With limit 1 and offset 0 the query selects the row created last, when
    its [created_at] is later than that of every other row. *)
Lemma select_page_newest (db : Database) (newest : QuoteRow) :
  In newest db ->
  (forall r, In r db -> r = newest \/ String.ltb (created_at r) (created_at newest) = true) ->
  select_page db 1 0 = [newest].
Proof.
  intros Hin Hnewest.
  destruct (select_page_descending db 1 0) as [sorted [Hperm [Hsorted ->]]].
  destruct (SQLFacts.descending_head _ db sorted newest Hperm Hsorted Hin Hnewest)
    as [rest ->].
  reflexivity.
Qed.

Lemma select_page_newest_witness :
  select_page [first_row; second_row] 1 0 = [second_row].
Proof.
  apply (select_page_newest [first_row; second_row] second_row).
  - right. now left.
  - intros r [<- | [<- | []]]; [right; reflexivity | now left].
Defined.

Lemma map_rows_unparsable (rt : Runtime) (rows : list QuoteRow) (r : QuoteRow) :
  In r rows ->
  JSON_parse rt (customer_data r) = None \/ JSON_parse rt (items r) = None ->
  map_rows rt rows = Throws.
Proof.
  intros Hin Hbad. induction rows as [|r0 rest IH]; [destruct Hin|].
  cbn [map_rows]. destruct Hin as [-> | Hin].
  - unfold listed_quote, parse.
    destruct Hbad as [-> | Hbad]; [reflexivity|].
    destruct (JSON_parse rt (customer_data r)); [|reflexivity].
    cbn [bind]. now rewrite Hbad.
  - destruct (listed_quote rt r0); [|reflexivity].
    cbn [bind]. now rewrite (IH Hin).
Qed.

(** X14. One selected row whose customer or items text is not JSON makes the
    whole listing fail with 500. *)
Lemma get_quotes_unparsable_row
  (rt : Runtime) (db : Database) (params : list (string * string)) (r : QuoteRow) :
  (1 <= requested_limit params <= 100)%Z ->
  In r (select_page db (requested_limit params) (requested_offset params)) ->
  JSON_parse rt (customer_data r) = None \/ JSON_parse rt (items r) = None ->
  get_quotes rt db params = jsonResponse (failure "Failed to retrieve quotes") 500.
Proof.
  intros Hlimit Hin Hbad. unfold get_quotes, list_page.
  destruct ((requested_limit params <? 1)%Z || (requested_limit params >? 100)%Z) eqn:E.
  - apply orb_true_iff in E as [E | E]; lia.
  - now rewrite (map_rows_unparsable rt _ r Hin Hbad).
Qed.

Lemma get_quotes_unparsable_row_witness :
  get_quotes unparsing_runtime [first_row; second_row] []
  = jsonResponse (failure "Failed to retrieve quotes") 500.
Proof.
  apply (get_quotes_unparsable_row unparsing_runtime [first_row; second_row] [] first_row).
  - vm_compute. split; discriminate.
  - vm_compute. right. now left.
  - now left.
Defined.

(** *** Lookup: what the format check lets through *)

Lemma matches_any_nil (s : string) : matches_any [] s = false.
Proof. induction s as [|c s IH]; [reflexivity | exact IH]. Qed.

Lemma append_empty_r (s : string) : s ++ "" = s.
Proof. induction s as [|c s IH]; [reflexivity | cbn; now rewrite IH]. Qed.

Lemma append_assoc (a b c : string) : (a ++ b) ++ c = a ++ (b ++ c).
Proof. induction a as [|d a IH]; [reflexivity | cbn; now rewrite IH]. Qed.

Lemma split_from_no_separator (sep : ascii) (cur s : string) :
  string_forall (fun c => negb (Ascii.eqb c sep)) s = true ->
  split_from sep cur s = [cur ++ s].
Proof.
  revert cur. induction s as [|c s IH]; intros cur H; cbn [split_from].
  - now rewrite append_empty_r.
  - cbn [string_forall] in H. apply andb_true_iff in H as [Hc Hs].
    apply negb_true_iff in Hc. rewrite Hc, (IH _ Hs). now rewrite append_assoc.
Qed.

Lemma toString_first_digit (n : N) :
  exists c rest, toString n = String c rest /\ isDigit c = true.
Proof.
  pose proof (AllocatorFacts.toString_digits n) as Hd.
  pose proof (AllocatorFacts.number_of_toString n) as Hn.
  destruct (toString n) as [|c rest] eqn:E.
  - injection Hn as <-. discriminate.
  - cbn [string_forall] in Hd. apply andb_true_iff in Hd as [Hc _]. now exists c, rest.
Qed.

Lemma reference_no_slash (year n : N) :
  string_forall (fun c => negb (Ascii.eqb c "/")) (reference year n) = true.
Proof.
  assert (D : forall s, string_forall isDigit s = true ->
                        string_forall (fun c => negb (Ascii.eqb c "/")) s = true).
  { induction s as [|c s IH]; [reflexivity|]. cbn [string_forall]. intros H.
    apply andb_true_iff in H as [Hc Hs]. rewrite (IH Hs), andb_true_r.
    destruct (Ascii.eqb_spec c "/") as [-> | _]; [discriminate | reflexivity]. }
  unfold reference. rewrite !AllocatorFacts.string_forall_app. cbn [string_forall].
  rewrite (D _ (AllocatorFacts.toString_digits year)).
  now rewrite (D _ (AllocatorFacts.padStart_zero_digits _ 4 (AllocatorFacts.toString_digits n))).
Qed.

(** The format check refuses every reference the allocator produces. *)
Lemma reference_format_refuses_references (year n : N) :
  test reference_format (reference year n) = false.
Proof.
  unfold reference. destruct (toString_first_digit year) as [c [rest [-> Hc]]].
  unfold test. cbn -[isDigit].
  destruct (Ascii.eqb_spec c "\") as [-> | _]; [discriminate|].
  apply matches_any_nil.
Qed.

(** X15. No reference the allocator produces can be looked up: whatever the
    table holds, the lookup endpoint answers 400 to it. *)
Lemma get_quote_refuses_references (rt : Runtime) (db : Database) (year n : N) :
  get_quote rt db ("/api/quotes/" ++ reference year n)
  = jsonResponse
      (failure "Invalid reference number format. Expected: GT-YYYY-NNNN") 400.
Proof.
  unfold get_quote, lookup_quote, split. cbn [append split_from Ascii.eqb Bool.eqb].
  rewrite (split_from_no_separator "/" "" _ (reference_no_slash year n)).
  cbn [index nth_error append]. now rewrite reference_format_refuses_references.
Qed.

(** The one text the format check lets through. *)
Lemma reference_format_accepts (s : string) :
  test reference_format s = true -> s = "GT-\dddd-\dddd".
Proof.
  unfold test, reference_format. cbn [lits app].
  do 14 (let c := fresh "c" in
         destruct s as [|c s]; [discriminate|];
         cbn [matches_any flat_map derive atom_matches app];
         match goal with
         | |- context [Ascii.eqb c ?d] =>
             destruct (Ascii.eqb_spec c d) as [-> | _];
             [|cbn [app]; rewrite matches_any_nil; discriminate]
         end).
  destruct s as [|c s]; [reflexivity|].
  cbn [matches_any flat_map derive atom_matches app]. rewrite matches_any_nil. discriminate.
Qed.

(** X6. The lookup endpoint answers 400 to every path but those whose
    fourth segment is the text [GT-\dddd-\dddd], a backslash and four letters
    [d] twice: the answer is 400 exactly when the segment is another text, or
    is missing. *)
Lemma get_quote_400 (rt : Runtime) (db : Database) (path : string) :
  status_code (get_quote rt db path) = 400
  <-> index (split path "/") 3 <> Some "GT-\dddd-\dddd".
Proof.
  unfold get_quote, lookup_quote.
  destruct (index (split path "/") 3) as [segment|].
  - destruct (test reference_format segment) eqn:T; cbn [negb].
    + apply reference_format_accepts in T. subst segment. split; [|congruence].
      intros H. exfalso. revert H.
      destruct (find _ db) as [row|]; [|discriminate].
      destruct (parse rt (customer_data row)); cbn [bind]; [|discriminate].
      destruct (parse rt (items row)); cbn [bind]; discriminate.
    + split; [|reflexivity]. intros _ [= ->]. discriminate.
  - split; [discriminate | reflexivity].
Qed.

End WorkerFacts.

(** ** The database service *)

Module AzureFacts.
Import AzureDatabase.

(** *** Search in a list *)

Lemma find_app_none {A : Type} (p : A -> bool) (l : list A) (x : A) :
  find p l = None -> find p (l ++ [x])%list = if p x then Some x else None.
Proof.
  induction l as [|a l IH]; cbn [find app]; [reflexivity|].
  destruct (p a); [discriminate | exact IH].
Qed.

Lemma find_app_some {A : Type} (p : A -> bool) (l l' : list A) (y : A) :
  find p l = Some y -> find p (l ++ l')%list = Some y.
Proof.
  induction l as [|a l IH]; cbn [find app]; [discriminate|].
  destruct (p a); [auto | exact IH].
Qed.

Lemma find_none_iff {A : Type} (p : A -> bool) (l : list A) :
  find p l = None <-> existsb p l = false.
Proof.
  induction l as [|a l IH]; cbn [find existsb]; [tauto|].
  destruct (p a); cbn [orb]; [split; discriminate | exact IH].
Qed.

Lemma find_map_option {A B : Type} (p : A -> bool) (f : A -> B) (q : B -> bool) (l : list A) :
  (forall a, q (f a) = p a) ->
  find q (map f l) = option_map f (find p l).
Proof.
  intros H. induction l as [|a l IH]; cbn [find map]; [reflexivity|].
  rewrite H. destruct (p a); [reflexivity | exact IH].
Qed.





Lemma update_first_none {A : Type} (p : A -> bool) (f : A -> A) (l : list A) :
  find p l = None -> update_first p f l = l.
Proof.
  induction l as [|a l IH]; cbn [find update_first]; [reflexivity|].
  destruct (p a); [discriminate|]. intros H. now rewrite IH.
Qed.

Lemma map_hit_none {A : Type} (p : A -> bool) (f : A -> A) (l : list A) :
  find p l = None -> map (fun a => if p a then f a else a) l = l.
Proof.
  induction l as [|a l IH]; cbn [find map]; [reflexivity|].
  destruct (p a); [discriminate|]. intros H. now rewrite IH.
Qed.

Lemma filter_none {A : Type} (p : A -> bool) (l : list A) :
  find p l = None -> filter (fun a => negb (p a)) l = l.
Proof.
  induction l as [|a l IH]; cbn [find filter]; [reflexivity|].
  destruct (p a); [discriminate|]. intros H. cbn [negb]. now rewrite IH.
Qed.

Lemma remove_first_none {A : Type} (p : A -> bool) (l : list A) :
  find p l = None -> remove_first p l = l.
Proof.
  induction l as [|a l IH]; cbn [find remove_first]; [reflexivity|].
  destruct (p a); [discriminate|]. intros H. now rewrite IH.
Qed.

Lemma find_filter_negb {A : Type} (p : A -> bool) (l : list A) :
  find p (filter (fun a => negb (p a)) l) = None.
Proof.
  induction l as [|a l IH]; cbn [filter]; [reflexivity|].
  destruct (p a) eqn:E; cbn [negb]; [exact IH|]. cbn [find]. now rewrite E.
Qed.

Lemma find_filter_other {A : Type} (p p' : A -> bool) (l : list A) :
  (forall a, p a = true -> p' a = false) ->
  find p' (filter (fun a => negb (p a)) l) = find p' l.
Proof.
  intros H. induction l as [|a l IH]; cbn [filter find]; [reflexivity|].
  destruct (p a) eqn:E; cbn [negb].
  - now rewrite (H a E).
  - cbn [find]. destruct (p' a); [reflexivity | exact IH].
Qed.

Lemma find_remove_first_other {A : Type} (p p' : A -> bool) (l : list A) :
  (forall a, p a = true -> p' a = false) ->
  find p' (remove_first p l) = find p' l.
Proof.
  intros H. induction l as [|a l IH]; cbn [remove_first find]; [reflexivity|].
  destruct (p a) eqn:E.
  - now rewrite (H a E).
  - cbn [find]. destruct (p' a); [reflexivity | exact IH].
Qed.

Lemma remove_first_length {A : Type} (p : A -> bool) (l : list A) :
  existsb p l = true -> S (List.length (remove_first p l)) = List.length l.
Proof.
  induction l as [|a l IH]; cbn [existsb remove_first]; [discriminate|].
  destruct (p a); cbn [orb List.length]; [reflexivity|]. intros H. now rewrite IH.
Qed.

Lemma with_quotes_same (st : State) : with_quotes st (quotes st) = st.
Proof. now destruct st. Qed.

(** The PostgreSQL branch refuses a quote whose values fit the columns
    and whose [id] or [reference_number], as stored, is already in the table,
    and leaves the table as it was. *)
Lemma createQuote_pg_conflict
  (pg : PostgreSQL) (st : State) (quote : QuoteStorage) (stored r : Row.t) :
  pgPool st = true ->
  store pg (row_of_quote quote) = Some stored ->
  In r (quotes st) ->
  Row.id r = Row.id stored \/ Row.reference_number r = Row.reference_number stored ->
  exists column, createQuote pg st quote = (Rejected (unique_violation column), st).
Proof.
  intros Hpool Hstore Hin Hsame. unfold createQuote, insert_returning.
  rewrite Hpool, Hstore.
  destruct (existsb (fun r0 => String.eqb (Row.id r0) (Row.id stored)) (quotes st)) eqn:Eid.
  - exists "id". now rewrite with_quotes_same.
  - destruct (existsb
                (fun r0 => String.eqb (Row.reference_number r0) (Row.reference_number stored))
                (quotes st)) eqn:Eref.
    + exists "reference_number". now rewrite with_quotes_same.
    + exfalso. destruct Hsame as [Hsame | Hsame].
      * apply not_true_iff_false in Eid. apply Eid, existsb_exists. exists r.
        split; [assumption | rewrite Hsame; apply String.eqb_refl].
      * apply not_true_iff_false in Eref. apply Eref, existsb_exists. exists r.
        split; [assumption | rewrite Hsame; apply String.eqb_refl].
Qed.

(** The in-memory branch never refuses a quote: it appends. *)
Lemma createQuote_dev_appends (pg : PostgreSQL) (st : State) (quote : QuoteStorage) :
  pgPool st = false ->
  createQuote pg st quote
    = (Resolved quote, with_devQuoteStorage st (devQuoteStorage st ++ [quote])%list).
Proof. intros H. unfold createQuote. now rewrite H. Qed.

(** C2. In the in-memory branch, creating a quote whose [id] or
    [referenceNumber] a stored quote already has is not refused: the call
    resolves with the quote, and the store holds both quotes afterwards. *)
Theorem createQuote_dev_stores_duplicate
  (pg : PostgreSQL) (st : State) (stored quote : QuoteStorage) :
  pgPool st = false ->
  In stored (devQuoteStorage st) ->
  id stored = id quote \/ referenceNumber stored = referenceNumber quote ->
  exists st',
    createQuote pg st quote = (Resolved quote, st') /\
    devQuoteStorage st' = (devQuoteStorage st ++ [quote])%list /\
    In stored (devQuoteStorage st') /\ In quote (devQuoteStorage st').
Proof.
  intros Hpool Hin _. rewrite (createQuote_dev_appends pg st quote Hpool).
  eexists. split; [reflexivity|]. cbn [with_devQuoteStorage devQuoteStorage].
  split; [reflexivity|]. rewrite !in_app_iff. split; [now left | right; now left].
Qed.

(** The quote of Scenario A stored as [GT-2025-0001], then a second quote
    created under the same reference. *)
Lemma createQuote_dev_stores_duplicate_witness :
  exists st',
    createQuote Spec.sample_postgres
      {| pgPool := false; quotes := []; devQuoteStorage := [Spec.stored_quote] |}
      Spec.same_reference_quote
      = (Resolved Spec.same_reference_quote, st') /\
    devQuoteStorage st' = ([Spec.stored_quote] ++ [Spec.same_reference_quote])%list /\
    In Spec.stored_quote (devQuoteStorage st') /\
    In Spec.same_reference_quote (devQuoteStorage st').
Proof.
  apply (createQuote_dev_stores_duplicate Spec.sample_postgres
           {| pgPool := false; quotes := []; devQuoteStorage := [Spec.stored_quote] |}
           Spec.stored_quote Spec.same_reference_quote).
  - reflexivity.
  - simpl. now left.
  - right. reflexivity.
Defined.

(** *** Creation and lookup *)

Lemma with_devQuoteStorage_same (st : State) :
  with_devQuoteStorage st (devQuoteStorage st) = st.
Proof. now destruct st. Qed.

Lemma convertRowToQuote_id (r : Row.t) : id (convertRowToQuote r) = Row.id r.
Proof. reflexivity. Qed.

(** X17. In the PostgreSQL branch, a quote whose values fit the columns,
    with its [id] and [referenceNumber] stored as they are passed and not
    found before, is stored: the call resolves with the stored row as a quote,
    of that [id] and [referenceNumber], which is then what both find. *)
Lemma createQuote_pg_round_trip
  (pg : PostgreSQL) (st : State) (quote : QuoteStorage) (stored : Row.t) :
  pgPool st = true ->
  store pg (row_of_quote quote) = Some stored ->
  Row.id stored = id quote ->
  Row.reference_number stored = referenceNumber quote ->
  findQuoteById st (id quote) = None ->
  findQuoteByReference st (referenceNumber quote) = None ->
  exists st',
    createQuote pg st quote = (Resolved (convertRowToQuote stored), st') /\
    quotes st' = (quotes st ++ [stored])%list /\
    id (convertRowToQuote stored) = id quote /\
    referenceNumber (convertRowToQuote stored) = referenceNumber quote /\
    findQuoteById st' (id quote) = Some (convertRowToQuote stored) /\
    findQuoteByReference st' (referenceNumber quote) = Some (convertRowToQuote stored).
Proof.
  intros Hpool Hstore Eid' Eref' Hid Href. unfold findQuoteById, findQuoteByReference in *.
  rewrite Hpool in *.
  destruct (find (fun r => String.eqb (Row.id r) (id quote)) (quotes st)) eqn:Fid;
    [discriminate|].
  destruct (find (fun r => String.eqb (Row.reference_number r) (referenceNumber quote))
              (quotes st)) eqn:Fref; [discriminate|].
  exists (with_quotes st (quotes st ++ [stored])%list).
  unfold createQuote, insert_returning. rewrite Hpool, Hstore.
  apply find_none_iff in Fid as Eid. apply find_none_iff in Fref as Eref.
  rewrite Eid', Eref', Eid, Eref.
  split; [reflexivity|]. split; [reflexivity|].
  split; [exact Eid'|]. split; [exact Eref'|].
  cbn [with_quotes pgPool quotes].
  rewrite (find_app_none _ _ _ Fid), (find_app_none _ _ _ Fref).
  cbn [find]. now rewrite Hpool, Eid', Eref', !String.eqb_refl.
Qed.

(** A second quote, created beside the stored quote. *)
Lemma createQuote_pg_round_trip_witness :
  exists st',
    createQuote Spec.sample_postgres Spec.pg_state Spec.second_quote
      = (Resolved Spec.second_quote, st') /\
    quotes st' = (quotes Spec.pg_state ++ [row_of_quote Spec.second_quote])%list /\
    id Spec.second_quote = "7c9e6679-7425-40de-944b-e07fc1f90ae7" /\
    referenceNumber Spec.second_quote = "GT-2025-0002" /\
    findQuoteById st' "7c9e6679-7425-40de-944b-e07fc1f90ae7" = Some Spec.second_quote /\
    findQuoteByReference st' "GT-2025-0002" = Some Spec.second_quote.
Proof.
  apply (createQuote_pg_round_trip Spec.sample_postgres Spec.pg_state Spec.second_quote
           (row_of_quote Spec.second_quote)); reflexivity.
Defined.

(** X18. The PostgreSQL branch keeps [id] and [reference_number] unique in the
    table, whatever quote is created. *)
Lemma createQuote_pg_keeps_unique (pg : PostgreSQL) (st : State) (quote : QuoteStorage) :
  pgPool st = true ->
  NoDup (map Row.id (quotes st)) ->
  NoDup (map Row.reference_number (quotes st)) ->
  NoDup (map Row.id (quotes (snd (createQuote pg st quote)))) /\
  NoDup (map Row.reference_number (quotes (snd (createQuote pg st quote)))).
Proof.
  intros Hpool Hid Href. unfold createQuote, insert_returning. rewrite Hpool.
  destruct (store pg (row_of_quote quote)) as [stored|]; [|now split].
  destruct (existsb (fun r => String.eqb (Row.id r) (Row.id stored))
              (quotes st)) eqn:Eid; [now split|].
  destruct (existsb
              (fun r => String.eqb (Row.reference_number r) (Row.reference_number stored))
              (quotes st)) eqn:Eref; [now split|].
  cbn [snd with_quotes quotes]. rewrite !map_app. cbn [map]. split.
  - apply NoDup_app; [assumption | repeat constructor; intros [] |].
    intros x Hx [<- | []]. apply in_map_iff in Hx as [r [E Hr]].
    apply not_true_iff_false in Eid. apply Eid, existsb_exists.
    exists r. split; [assumption | now apply String.eqb_eq].
  - apply NoDup_app; [assumption | repeat constructor; intros [] |].
    intros x Hx [<- | []]. apply in_map_iff in Hx as [r [E Hr]].
    apply not_true_iff_false in Eref. apply Eref, existsb_exists.
    exists r. split; [assumption | now apply String.eqb_eq].
Qed.

Lemma createQuote_pg_keeps_unique_witness :
  NoDup (map Row.id
           (quotes (snd (createQuote Spec.sample_postgres Spec.pg_state
                           Spec.same_reference_quote)))) /\
  NoDup (map Row.reference_number
           (quotes (snd (createQuote Spec.sample_postgres Spec.pg_state
                           Spec.same_reference_quote)))).
Proof.
  apply (createQuote_pg_keeps_unique Spec.sample_postgres Spec.pg_state
           Spec.same_reference_quote).
  - reflexivity.
  - repeat constructor. intros [].
  - repeat constructor. intros [].
Defined.

(** X19. In the in-memory branch, the quote found under an [id] after a creation
    is the one found before it, when there was one: a quote created under an
    [id] already stored is never found by [findQuoteById]. *)
Lemma findQuoteById_after_createQuote_dev
  (pg : PostgreSQL) (st : State) (quote : QuoteStorage) :
  pgPool st = false ->
  findQuoteById (snd (createQuote pg st quote)) (id quote)
  = match findQuoteById st (id quote) with
    | Some earlier => Some earlier
    | None => Some quote
    end.
Proof.
  intros Hpool. unfold createQuote, findQuoteById. rewrite Hpool.
  cbn [snd with_devQuoteStorage pgPool devQuoteStorage]. rewrite Hpool.
  destruct (find (fun q => String.eqb (id q) (id quote)) (devQuoteStorage st)) eqn:F.
  - now apply find_app_some.
  - rewrite (find_app_none _ _ _ F). now rewrite String.eqb_refl.
Qed.

Lemma findQuoteById_after_createQuote_dev_witness :
  findQuoteById (snd (createQuote Spec.sample_postgres Spec.dev_state Spec.second_quote))
    (id Spec.second_quote)
  = match findQuoteById Spec.dev_state (id Spec.second_quote) with
    | Some earlier => Some earlier
    | None => Some Spec.second_quote
    end.
Proof.
  apply (findQuoteById_after_createQuote_dev Spec.sample_postgres Spec.dev_state
           Spec.second_quote).
  reflexivity.
Defined.

(** X20. What [getAllReferences] returns after a creation: the references
    it held before, and the reference of the created quote when the creation
    resolved, in whatever order PostgreSQL scans them; in the in-memory branch
    the new reference comes last. *)
Lemma getAllReferences_after_createQuote
  (pg : PostgreSQL) (st : State) (quote : QuoteStorage) :
  match fst (createQuote pg st quote) with
  | Resolved created =>
      Permutation (getAllReferences pg (snd (createQuote pg st quote)))
        (getAllReferences pg st ++ [referenceNumber created]) /\
      (pgPool st = false ->
       getAllReferences pg (snd (createQuote pg st quote))
       = (getAllReferences pg st ++ [referenceNumber quote])%list)
  | Rejected _ =>
      Permutation (getAllReferences pg (snd (createQuote pg st quote)))
        (getAllReferences pg st)
  end.
Proof.
  unfold createQuote, insert_returning, getAllReferences.
  destruct (pgPool st) eqn:Hpool.
  - destruct (store pg (row_of_quote quote)) as [stored|];
      [|cbn; rewrite Hpool; apply Permutation_refl].
    destruct (existsb _ (quotes st)); [cbn; rewrite Hpool; apply Permutation_refl|].
    destruct (existsb _ (quotes st)); cbn; rewrite Hpool; [apply Permutation_refl|].
    split; [|discriminate].
    rewrite <- (scan_rows pg (quotes st ++ [stored])), <- (scan_rows pg (quotes st)).
    now rewrite map_app.
  - cbn. rewrite Hpool, map_app. split; [apply Permutation_refl | reflexivity].
Qed.

(** *** Status updates *)

Lemma convertRowToQuote_set_row_status (newStatus : Status) (modified : string) (r : Row.t) :
  convertRowToQuote (set_row_status newStatus modified r)
  = set_quote_status newStatus modified (convertRowToQuote r).
Proof. reflexivity. Qed.

(** An [id] that is not found: nothing is updated, in either branch. *)
Lemma updateQuoteStatus_missing
  (st : State) (key : string) (newStatus : Status) (modified : string) :
  findQuoteById st key = None ->
  updateQuoteStatus st key newStatus modified = (None, st).
Proof.
  unfold findQuoteById, updateQuoteStatus. destruct (pgPool st).
  - destruct (find (fun r => String.eqb (Row.id r) key) (quotes st)) eqn:F;
      [discriminate|]. intros _. cbn [option_map].
    now rewrite (map_hit_none _ _ _ F), with_quotes_same.
  - intros F. rewrite F. cbn [option_map].
    now rewrite (update_first_none _ _ _ F), with_devQuoteStorage_same.
Qed.

Lemma updateQuoteStatus_missing_witness :
  updateQuoteStatus Spec.pg_state "no-such-id" approved "2025-06-03T10:00:00.000Z"
  = (None, Spec.pg_state).
Proof.
  apply (updateQuoteStatus_missing Spec.pg_state "no-such-id" approved
           "2025-06-03T10:00:00.000Z").
  reflexivity.
Defined.



(** *** Deletion *)

(** [deleteQuote] tells whether the [id] was found. *)
Lemma deleteQuote_result (st : State) (key : string) :
  fst (deleteQuote st key) = true <-> findQuoteById st key <> None.
Proof.
  unfold deleteQuote, findQuoteById. destruct (pgPool st); cbn [fst].
  - destruct (find (fun r => String.eqb (Row.id r) key) (quotes st)) eqn:F.
    + split; [discriminate|]. intros _.
      destruct (existsb (fun r => String.eqb (Row.id r) key) (quotes st)) eqn:E;
        [reflexivity|]. apply find_none_iff in E. congruence.
    + apply find_none_iff in F. rewrite F. split; [discriminate | now intros []].
  - destruct (find (fun q => String.eqb (id q) key) (devQuoteStorage st)) eqn:F.
    + split; [discriminate|]. intros _.
      destruct (existsb (fun q => String.eqb (id q) key) (devQuoteStorage st)) eqn:E;
        [reflexivity|]. apply find_none_iff in E. congruence.
    + apply find_none_iff in F. rewrite F. split; [discriminate | now intros []].
Qed.

(** An [id] that is not found: nothing is deleted, in either branch. *)
Lemma deleteQuote_missing (st : State) (key : string) :
  findQuoteById st key = None -> deleteQuote st key = (false, st).
Proof.
  unfold findQuoteById, deleteQuote. destruct (pgPool st).
  - destruct (find (fun r => String.eqb (Row.id r) key) (quotes st)) eqn:F;
      [discriminate|]. intros _.
    rewrite (filter_none _ _ F), with_quotes_same.
    apply find_none_iff in F. now rewrite F.
  - intros F. rewrite (remove_first_none _ _ F), with_devQuoteStorage_same.
    apply find_none_iff in F. now rewrite F.
Qed.

Lemma deleteQuote_missing_witness :
  deleteQuote Spec.dev_state "no-such-id" = (false, Spec.dev_state).
Proof.
  apply (deleteQuote_missing Spec.dev_state "no-such-id"). reflexivity.
Defined.

(** X22. Deletion in the PostgreSQL branch: the [id] is not found afterwards,
    and every other [id] finds what it found before. *)
Lemma deleteQuote_pg (st : State) (key : string) :
  pgPool st = true ->
  let st' := snd (deleteQuote st key) in
  findQuoteById st' key = None /\
  (forall other, other <> key -> findQuoteById st' other = findQuoteById st other).
Proof.
  intros Hpool. cbn zeta. unfold deleteQuote, findQuoteById. rewrite Hpool.
  cbn [snd with_quotes pgPool quotes]. rewrite Hpool. split.
  - now rewrite find_filter_negb.
  - intros other Hother. f_equal.
    apply (find_filter_other (fun r => String.eqb (Row.id r) key)).
    intros a Ha. apply String.eqb_eq in Ha. rewrite Ha.
    apply String.eqb_neq. congruence.
Qed.

Lemma deleteQuote_pg_witness :
  let st' := snd (deleteQuote Spec.pg_state (id Spec.stored_quote)) in
  findQuoteById st' (id Spec.stored_quote) = None /\
  (forall other, other <> id Spec.stored_quote ->
                 findQuoteById st' other = findQuoteById Spec.pg_state other).
Proof.
  apply (deleteQuote_pg Spec.pg_state (id Spec.stored_quote)). reflexivity.
Defined.

Lemma find_remove_first_unique (key : string) (l : list QuoteStorage) :
  NoDup (map id l) ->
  find (fun q => String.eqb (id q) key) (remove_first (fun q => String.eqb (id q) key) l)
  = None.
Proof.
  induction l as [|a l IH]; cbn [map remove_first]; [reflexivity|].
  intros Hnd. apply NoDup_cons_iff in Hnd as [Ha Hl].
  destruct (String.eqb_spec (id a) key) as [E | E].
  - apply find_none_iff.
    destruct (existsb (fun q => String.eqb (id q) key) l) eqn:X; [exfalso | reflexivity].
    apply existsb_exists in X as [q [Hq Hk]]. apply String.eqb_eq in Hk.
    apply Ha. rewrite E, <- Hk. now apply in_map.
  - cbn [find]. apply String.eqb_neq in E. rewrite E. now apply IH.
Qed.

Lemma remove_first_split {A : Type} (p : A -> bool) (l : list A) :
  existsb p l = true ->
  exists before removed after,
    l = (before ++ removed :: after)%list /\
    p removed = true /\
    (forall a, In a before -> p a = false) /\
    remove_first p l = (before ++ after)%list.
Proof.
  induction l as [|a l IH]; cbn [existsb remove_first]; [discriminate|].
  destruct (p a) eqn:E.
  - intros _. exists [], a, l. repeat split; [exact E | intros ? []].
  - cbn [orb]. intros H. destruct (IH H) as [before [removed [after [-> [Hp [Hb ->]]]]]].
    exists (a :: before), removed, after. repeat split; [exact Hp|].
    intros x [<- | Hx]; [exact E | now apply Hb].
Qed.

(** X23. Deletion in the in-memory branch, when it returns true, removes
    one quote: the first stored under the [id], the quotes before it and after
    it staying as they are; every other [id] finds what it found before; and
    when no two stored quotes share an [id], the deleted [id] is not found
    afterwards. *)
Lemma deleteQuote_dev (st : State) (key : string) :
  pgPool st = false ->
  let st' := snd (deleteQuote st key) in
  (fst (deleteQuote st key) = true ->
   exists before removed after,
     devQuoteStorage st = (before ++ removed :: after)%list /\
     id removed = key /\
     (forall q, In q before -> id q <> key) /\
     devQuoteStorage st' = (before ++ after)%list) /\
  (forall other, other <> key -> findQuoteById st' other = findQuoteById st other) /\
  (NoDup (map id (devQuoteStorage st)) -> findQuoteById st' key = None).
Proof.
  intros Hpool. cbn zeta. unfold deleteQuote, findQuoteById. rewrite Hpool.
  cbn [fst snd with_devQuoteStorage pgPool devQuoteStorage]. rewrite Hpool.
  split; [|split].
  - intros H.
    destruct (remove_first_split _ _ H) as [before [removed [after [E [Hp [Hb Hr]]]]]].
    exists before, removed, after. repeat split; try assumption.
    + now apply String.eqb_eq.
    + intros q Hq. apply String.eqb_neq. now apply Hb.
  - intros other Hother.
    apply (find_remove_first_other (fun q => String.eqb (id q) key)).
    intros a Ha. apply String.eqb_eq in Ha. rewrite Ha.
    apply String.eqb_neq. congruence.
  - apply find_remove_first_unique.
Qed.

(** The stored quote deleted from the store that holds it, and a quote
    created after it under the same [id]: the first of the two goes. *)
Lemma deleteQuote_dev_witness :
  let st := {| pgPool := false; quotes := [];
               devQuoteStorage := [Spec.stored_quote; Spec.same_id_quote] |} in
  let st' := snd (deleteQuote st (id Spec.stored_quote)) in
  (fst (deleteQuote st (id Spec.stored_quote)) = true ->
   exists before removed after,
     devQuoteStorage st = (before ++ removed :: after)%list /\
     id removed = id Spec.stored_quote /\
     (forall q, In q before -> id q <> id Spec.stored_quote) /\
     devQuoteStorage st' = (before ++ after)%list) /\
  devQuoteStorage st' = [Spec.same_id_quote] /\
  (forall other, other <> id Spec.stored_quote ->
                 findQuoteById st' other = findQuoteById st other) /\
  (NoDup (map id (devQuoteStorage st)) -> findQuoteById st' (id Spec.stored_quote) = None).
Proof.
  cbn zeta.
  destruct (deleteQuote_dev
              {| pgPool := false; quotes := [];
                 devQuoteStorage := [Spec.stored_quote; Spec.same_id_quote] |}
              (id Spec.stored_quote) eq_refl) as [H1 [H2 H3]].
  split; [exact H1|]. split; [reflexivity|]. split; [exact H2 | exact H3].
Defined.

(** X24. An [id] that is not found, in either branch: an update and a deletion
    both report it and change nothing. *)
Lemma missing_id_changes_nothing
  (st : State) (key : string) (newStatus : Status) (modified : string) :
  findQuoteById st key = None ->
  updateQuoteStatus st key newStatus modified = (None, st) /\
  deleteQuote st key = (false, st).
Proof.
  intros H. split; [now apply updateQuoteStatus_missing | now apply deleteQuote_missing].
Qed.

Lemma missing_id_changes_nothing_witness :
  updateQuoteStatus Spec.pg_state "no-such-id" approved "2025-06-03T10:00:00.000Z"
    = (None, Spec.pg_state) /\
  deleteQuote Spec.pg_state "no-such-id" = (false, Spec.pg_state).
Proof.
  apply (missing_id_changes_nothing Spec.pg_state "no-such-id" approved
           "2025-06-03T10:00:00.000Z").
  reflexivity.
Defined.

(** *** Switching between the two stores *)



(** *** Listing *)

Section Listing.
Variable instant : string -> Z.

Lemma older_asym (a b : Row.t) : older instant a b = true -> older instant b a = false.
Proof. unfold older. intros H. apply Z.ltb_lt in H. apply Z.ltb_ge. lia. Qed.

Lemma older_trans (a b c : Row.t) :
  older instant a b = true -> older instant b c = true -> older instant a c = true.
Proof.
  unfold older. intros Hab Hbc. apply Z.ltb_lt in Hab, Hbc. apply Z.ltb_lt. lia.
Qed.

(** X26. The PostgreSQL branch lists in descending order of [created_at]: a
    window of the table's rows sorted newest first, [offset] rows skipped and
    at most [limit] returned. *)
Lemma getAllQuotes_pg_descending (st : State) (limit offset : Z) :
  pgPool st = true ->
  (0 <= limit)%Z -> (0 <= offset)%Z ->
  exists sorted,
    Permutation (quotes st) sorted /\
    SQL.descending (older instant) sorted /\
    getAllQuotes instant st (Some limit) (Some offset)
      = Resolved (map convertRowToQuote
                    (firstn (Z.to_nat limit) (skipn (Z.to_nat offset) sorted))).
Proof.
  intros Hpool Hlimit Hoffset.
  exists (SQL.order_by_desc (older instant) (quotes st)). repeat split.
  - apply SQLFacts.order_by_desc_perm.
  - apply SQLFacts.order_by_desc_descending; [apply older_asym | apply older_trans].
  - unfold getAllQuotes, select_page. rewrite Hpool.
    destruct (Z.ltb_spec limit 0); [lia|].
    destruct (Z.ltb_spec offset 0); [lia|]. reflexivity.
Qed.

(** In the PostgreSQL branch, [getAllQuotes(1, 0)] is the row created
    last, when its [created_at] is later than that of every other row. *)
Lemma getAllQuotes_pg_newest (st : State) (newest : Row.t) :
  pgPool st = true ->
  In newest (quotes st) ->
  (forall r, In r (quotes st) -> r = newest \/ older instant r newest = true) ->
  getAllQuotes instant st (Some 1%Z) (Some 0%Z) = Resolved [convertRowToQuote newest].
Proof.
  intros Hpool Hin Hnewest. unfold getAllQuotes, select_page. rewrite Hpool.
  cbn [Z.ltb Z.compare]. unfold SQL.limit_offset.
  destruct (SQLFacts.descending_head (older instant) (quotes st)
              (SQL.order_by_desc (older instant) (quotes st)) newest
              (SQLFacts.order_by_desc_perm _ _)
              (SQLFacts.order_by_desc_descending _ older_asym older_trans _)
              Hin Hnewest) as [rest ->].
  reflexivity.
Qed.

(** X27. In the in-memory branch, with a limit and an offset that are not
    negative, the listing is the stored quotes in the order they were created,
    the first [offset] skipped and at most [limit] returned. *)
Lemma getAllQuotes_dev_page (st : State) (limit offset : Z) :
  pgPool st = false ->
  (0 <= limit)%Z -> (0 <= offset)%Z ->
  getAllQuotes instant st (Some limit) (Some offset)
  = Resolved (firstn (Z.to_nat limit) (skipn (Z.to_nat offset) (devQuoteStorage st))).
Proof.
  intros Hpool Hlimit Hoffset. unfold getAllQuotes. rewrite Hpool. f_equal.
  unfold JS.slice, JS.slice_index.
  destruct (Z.ltb_spec offset 0); [lia|].
  destruct (Z.ltb_spec (offset + limit) 0); [lia|].
  set (l := devQuoteStorage st).
  destruct (Nat.le_gt_cases (List.length l) (Z.to_nat offset)) as [Hout | Hin].
  - rewrite (Nat.min_r _ _ Hout), !skipn_all2 by lia. now rewrite !firstn_nil.
  - rewrite (Nat.min_l (Z.to_nat offset)) by lia.
    destruct (Nat.le_gt_cases (Z.to_nat (offset + limit)) (List.length l)) as [Hfit | Hcut].
    + rewrite Nat.min_l by exact Hfit. f_equal. lia.
    + rewrite Nat.min_r by lia.
      rewrite !firstn_all2; rewrite ?length_skipn; try lia. reflexivity.
Qed.

(** C5. In the in-memory branch the listing is in insertion order, oldest
    first: after three quotes are created, [getAllQuotes(1, 0)] is the quote
    created first, and the whole listing runs from the first created to the
    last. *)
Theorem getAllQuotes_dev_oldest_first (pg : PostgreSQL) (q1 q2 q3 : QuoteStorage) :
  let st0 := {| pgPool := false; quotes := []; devQuoteStorage := [] |} in
  let st1 := snd (createQuote pg st0 q1) in
  let st2 := snd (createQuote pg st1 q2) in
  let st3 := snd (createQuote pg st2 q3) in
  getAllQuotes instant st3 (Some 1%Z) (Some 0%Z) = Resolved [q1] /\
  getAllQuotes instant st3 None None = Resolved [q1; q2; q3].
Proof. split; reflexivity. Qed.

End Listing.

(** The table holding the stored quote and one created a day later, listed
    with limit 1 and offset 0. *)
Lemma getAllQuotes_pg_newest_witness :
  getAllQuotes Spec.sample_instant
    {| pgPool := true;
       quotes := [row_of_quote Spec.stored_quote; row_of_quote Spec.second_quote];
       devQuoteStorage := [] |}
    (Some 1%Z) (Some 0%Z)
  = Resolved [convertRowToQuote (row_of_quote Spec.second_quote)].
Proof.
  apply (getAllQuotes_pg_newest Spec.sample_instant
           {| pgPool := true;
              quotes := [row_of_quote Spec.stored_quote; row_of_quote Spec.second_quote];
              devQuoteStorage := [] |}
           (row_of_quote Spec.second_quote)).
  - reflexivity.
  - right. now left.
  - intros r [<- | [<- | []]]; [right; reflexivity | now left].
Defined.

Lemma getAllQuotes_dev_page_witness :
  getAllQuotes Spec.sample_instant Spec.dev_state (Some 10%Z) (Some 0%Z)
  = Resolved (firstn (Z.to_nat 10) (skipn (Z.to_nat 0) (devQuoteStorage Spec.dev_state))).
Proof.
  apply (getAllQuotes_dev_page Spec.sample_instant Spec.dev_state 10 0);
    [reflexivity | lia | lia].
Defined.

Lemma getAllQuotes_pg_descending_witness :
  exists sorted,
    Permutation (quotes Spec.pg_state) sorted /\
    SQL.descending (older Spec.sample_instant) sorted /\
    getAllQuotes Spec.sample_instant Spec.pg_state (Some 10%Z) (Some 0%Z)
      = Resolved (map convertRowToQuote
                    (firstn (Z.to_nat 10) (skipn (Z.to_nat 0) sorted))).
Proof.
  apply (getAllQuotes_pg_descending Spec.sample_instant Spec.pg_state 10 0);
    [reflexivity | lia | lia].
Defined.

End AzureFacts.

(** ** The product catalogue *)

Module ProductFacts.
Import JS Products.

(** The step of [like] on a pattern that starts with [%]. *)
Lemma like_percent (pattern text : string) :
  like (String "%" pattern) text
  = like pattern text
    || match text with
       | EmptyString => false
       | String _ text' => like (String "%" pattern) text'
       end.
Proof. destruct text; reflexivity. Qed.

(** [%] in front of a pattern lets the pattern match any suffix. *)
Lemma like_percent_suffix (pattern before text : string) :
  like pattern text = true -> like (String "%" pattern) (before ++ text) = true.
Proof.
  intros H. induction before as [|c before IH]; cbn [append]; rewrite like_percent.
  - now rewrite H.
  - rewrite IH. apply orb_true_r.
Qed.

Lemma like_percent_anything (text : string) : like "%" text = true.
Proof.
  rewrite <- (WorkerFacts.append_empty_r text). now apply like_percent_suffix.
Qed.

Lemma lower_eqb_refl (c : ascii) : Ascii.eqb (lower c) (lower c) = true.
Proof. apply Ascii.eqb_refl. Qed.

(** A text, taken as a pattern and followed by [%], matches whatever starts
    with the text: the wildcards it may hold match themselves too. *)
Lemma like_prefix (text after : string) :
  like (text ++ "%") (text ++ after) = true.
Proof.
  induction text as [|c text IH]; cbn [append].
  - apply like_percent_anything.
  - destruct (Ascii.eqb c "%") eqn:E.
    + apply Ascii.eqb_eq in E. subst c. rewrite like_percent.
      pose proof (like_percent_suffix (text ++ "%") "" (text ++ after) IH) as H.
      cbn [append] in H. rewrite H. apply orb_true_r.
    + cbn [like]. rewrite E, IH, lower_eqb_refl. now rewrite orb_true_r.
Qed.

(** The pattern [%text%] matches whatever contains the text. *)
Lemma like_contains (text before after : string) :
  like ("%" ++ text ++ "%") (before ++ text ++ after) = true.
Proof. apply like_percent_suffix, like_prefix. Qed.

(** The products listed are the rows of the catalogue that the filters
    select, each once per row, no product created strictly before one that
    follows it. *)
Lemma select_products_rows (db : Catalogue) (category search featured_only : option string) :
  let listed := select_products db category search featured_only in
  Permutation (filter (selected category search featured_only) db) listed /\
  (forall r, In r listed <-> In r db /\ selected category search featured_only r = true) /\
  SQL.descending (fun a b => String.ltb (created_at a) (created_at b)) listed.
Proof.
  cbn zeta. unfold select_products. split; [|split].
  - apply SQLFacts.order_by_desc_perm.
  - intros r. rewrite <- filter_In. split; intros Hr.
    + eapply Permutation_in; [apply Permutation_sym, SQLFacts.order_by_desc_perm | exact Hr].
    + eapply Permutation_in; [apply SQLFacts.order_by_desc_perm | exact Hr].
  - apply SQLFacts.order_by_desc_descending.
    + intros a b. apply SQLFacts.string_ltb_asym.
    + intros a b c. apply SQLFacts.string_ltb_trans.
Qed.

(** X28. A search lists every product whose name contains the text searched
    for, whatever characters the text is made of. The text is taken to be of
    at most 48 characters: D1 refuses a [LIKE] pattern of more than 50. *)
Lemma search_finds_names (db : Catalogue) (text before after : string) (r : ProductRow) :
  text <> "" ->
  String.length text <= 48 ->
  In r db ->
  name r = before ++ text ++ after ->
  In r (select_products db None (Some text) None).
Proof.
  intros Htext _ Hin Hname.
  apply (proj1 (proj2 (select_products_rows db None (Some text) None))).
  split; [exact Hin|]. unfold selected.
  apply String.eqb_neq in Htext. rewrite Htext. cbn [negb andb].
  now rewrite Hname, like_contains.
Qed.

Lemma search_finds_names_witness :
  In Spec.premium_product
    (select_products [Spec.standard_product; Spec.premium_product] None (Some "Service") None).
Proof.
  apply (search_finds_names [Spec.standard_product; Spec.premium_product]
           "Service" "Premium " ": 1 IGCSE Subject" Spec.premium_product).
  - discriminate.
  - cbn. lia.
  - right. now left.
  - reflexivity.
Defined.

Lemma filter_true {A : Type} (p : A -> bool) (l : list A) :
  (forall a, p a = true) -> filter p l = l.
Proof.
  intros H. induction l as [|a l IH]; cbn [filter]; [reflexivity|].
  now rewrite H, IH.
Qed.

(** X29. Without a category, or with the category [all], without a search text
    and with [featured] anything but the text [true], every product of the
    catalogue is listed. *)
Lemma select_products_unfiltered
  (db : Catalogue) (category search featured_only : option string) :
  category = None \/ category = Some "" \/ category = Some "all" ->
  search = None \/ search = Some "" ->
  featured_only <> Some "true" ->
  Permutation db (select_products db category search featured_only).
Proof.
  intros Hc Hs Hf. unfold select_products.
  rewrite filter_true; [apply SQLFacts.order_by_desc_perm|].
  intros r. unfold selected.
  assert (F : match featured_only with
              | Some f =>
                  if String.eqb f "true"
                  then match featured r with
                       | Some z => (z =? 1)%Z
                       | None => false
                       end
                  else true
              | None => true
              end = true).
  { destruct featured_only as [f|]; [|reflexivity].
    destruct (String.eqb_spec f "true") as [-> | _]; [contradiction | reflexivity]. }
  rewrite F. destruct Hc as [-> | [-> | ->]]; destruct Hs as [-> | ->]; reflexivity.
Qed.

(** [?category=all&featured=1] lists the whole catalogue. *)
Lemma select_products_unfiltered_witness :
  Permutation [Spec.standard_product; Spec.premium_product]
    (select_products [Spec.standard_product; Spec.premium_product]
       (Some "all") None (Some "1")).
Proof.
  apply (select_products_unfiltered [Spec.standard_product; Spec.premium_product]
           (Some "all") None (Some "1")).
  - right. now right.
  - now left.
  - discriminate.
Defined.

(** The wildcards of a search text are not escaped: the search text [%]
    lists the whole catalogue. *)
Lemma search_percent_lists_everything (db : Catalogue) :
  Permutation db (select_products db None (Some "%") None).
Proof.
  unfold select_products. rewrite filter_true; [apply SQLFacts.order_by_desc_perm|].
  intros r. unfold selected. cbn [String.eqb Ascii.eqb Bool.eqb negb andb append].
  rewrite <- (WorkerFacts.append_empty_r (name r)).
  now rewrite (like_percent_suffix "%%" (name r) "" eq_refl).
Qed.

(** *** One product *)

Lemma product_path (key : string) :
  string_forall (fun c => negb (Ascii.eqb c "/")) key = true ->
  index (split ("/api/products/" ++ key) "/") 3 = Some key.
Proof.
  intros H. unfold split. cbn [append split_from Ascii.eqb Bool.eqb].
  now rewrite (WorkerFacts.split_from_no_separator "/" "" key H).
Qed.

(** An [id] no row has is answered 404. *)
Lemma get_product_missing (rt : Runtime) (db : Catalogue) (key : string) :
  string_forall (fun c => negb (Ascii.eqb c "/")) key = true ->
  find (fun r => String.eqb (id r) key) db = None ->
  get_product rt db ("/api/products/" ++ key)
  = Worker.jsonResponse (VObj [("error", VStr "Product not found")]) 404.
Proof.
  intros Hkey Hfind. unfold get_product. now rewrite (product_path key Hkey), Hfind.
Qed.

Lemma get_product_missing_witness :
  get_product Spec.sample_runtime [Spec.standard_product] ("/api/products/" ++ "no-such-id")
  = Worker.jsonResponse (VObj [("error", VStr "Product not found")]) 404.
Proof.
  apply (get_product_missing Spec.sample_runtime [Spec.standard_product] "no-such-id");
    reflexivity.
Defined.

(** An [id] a row has is answered 200 with the product of the first such
    row, when its tags parse: the row's columns, the tags parsed, and the two
    flags as booleans, a [NULL] or 0 column reading false. *)
Lemma get_product_found
  (rt : Runtime) (db : Catalogue) (key : string) (r : ProductRow) (parsed : value) :
  string_forall (fun c => negb (Ascii.eqb c "/")) key = true ->
  find (fun r => String.eqb (id r) key) db = Some r ->
  JSON_parse rt (tags_text r) = Some parsed ->
  exists product,
    get_product rt db ("/api/products/" ++ key) = Worker.jsonResponse product 200 /\
    get_field product "id" = VStr key /\
    get_field product "name" = VStr (name r) /\
    get_field product "price" = VNum (price r) /\
    get_field product "tags" = parsed /\
    get_field product "inStock" = VBool (flag (in_stock r)) /\
    get_field product "featured" = VBool (flag (featured r)).
Proof.
  intros Hkey Hfind Hparse. unfold get_product.
  rewrite (product_path key Hkey), Hfind.
  unfold product_of_row, parse. rewrite Hparse. cbn [bind].
  eexists. split; [reflexivity|].
  apply find_some in Hfind as [_ Hid]. apply String.eqb_eq in Hid.
  cbn. now rewrite Hid.
Qed.

Lemma get_product_found_witness :
  exists product,
    get_product Spec.sample_runtime [Spec.standard_product; Spec.premium_product]
      ("/api/products/" ++ "pricing-igcse-premium-1")
      = Worker.jsonResponse product 200 /\
    get_field product "id" = VStr "pricing-igcse-premium-1" /\
    get_field product "name" = VStr (name Spec.premium_product) /\
    get_field product "price" = VNum (price Spec.premium_product) /\
    get_field product "tags" = VObj [] /\
    get_field product "inStock" = VBool (flag (in_stock Spec.premium_product)) /\
    get_field product "featured" = VBool (flag (featured Spec.premium_product)).
Proof.
  apply (get_product_found Spec.sample_runtime
           [Spec.standard_product; Spec.premium_product]
           "pricing-igcse-premium-1" Spec.premium_product (VObj [])); reflexivity.
Defined.

(** X30. [GET /api/products/:id]: an [id] no row has is answered 404; an [id] a
    row has is answered 200 with the product of that row, when its tags parse:
    the row's columns, the tags parsed, and the two flags as booleans, a
    [NULL] or 0 column reading false. *)
Lemma get_product_by_id (rt : Runtime) (db : Catalogue) (key : string) :
  string_forall (fun c => negb (Ascii.eqb c "/")) key = true ->
  match find (fun r => String.eqb (id r) key) db with
  | None =>
      get_product rt db ("/api/products/" ++ key)
      = Worker.jsonResponse (VObj [("error", VStr "Product not found")]) 404
  | Some r =>
      forall parsed,
        JSON_parse rt (tags_text r) = Some parsed ->
        exists product,
          get_product rt db ("/api/products/" ++ key) = Worker.jsonResponse product 200 /\
          get_field product "id" = VStr key /\
          get_field product "name" = VStr (name r) /\
          get_field product "price" = VNum (price r) /\
          get_field product "tags" = parsed /\
          get_field product "inStock" = VBool (flag (in_stock r)) /\
          get_field product "featured" = VBool (flag (featured r))
  end.
Proof.
  intros Hkey.
  destruct (find (fun r => String.eqb (id r) key) db) as [r|] eqn:F.
  - intros parsed Hparse. now apply (get_product_found rt db key r parsed).
  - now apply get_product_missing.
Qed.

(** The premium product, whose [in_stock] and [featured] are 0, and an
    [id] no product has. *)
Lemma get_product_by_id_witness :
  (exists product,
     get_product Spec.sample_runtime [Spec.standard_product; Spec.premium_product]
       ("/api/products/" ++ "pricing-igcse-premium-1")
       = Worker.jsonResponse product 200 /\
     get_field product "inStock" = VBool false /\
     get_field product "featured" = VBool false) /\
  get_product Spec.sample_runtime [Spec.standard_product; Spec.premium_product]
    ("/api/products/" ++ "no-such-id")
  = Worker.jsonResponse (VObj [("error", VStr "Product not found")]) 404.
Proof.
  split.
  - destruct (get_product_by_id Spec.sample_runtime
                [Spec.standard_product; Spec.premium_product]
                "pricing-igcse-premium-1" eq_refl (VObj []) eq_refl)
      as [product [E [_ [_ [_ [_ [Hs Hf]]]]]]].
    exists product. repeat split; assumption.
  - exact (get_product_by_id Spec.sample_runtime
             [Spec.standard_product; Spec.premium_product] "no-such-id" eq_refl).
Defined.

End ProductFacts.
